(** * Fastboot MTD flashing backend (drivers/fastboot/fb_spi_flash.c)

    A shallow embedding of the fastboot backend that flashes images into
    MTD (SPI-NAND) partitions, and the properties of its orchestration
    logic: the bounded-retry partition resolver, the erase-length
    computation of a raw write, the sparse write callback, and the
    acquire/release discipline of the device handle.

    The MTD subsystem is an external collaborator.  It is modelled as an
    arbitrary state machine [mtd_env W] over a state [W]; every call the
    backend makes into it, and every response handed to the fastboot
    protocol layer, is appended to a trace of [event]s.  Console output
    (printf) is not part of the model. *)

From Stdlib Require Import ZArith List String Ascii Bool Lia.
Import ListNotations.
Local Open Scope Z_scope.

(** ** Machine integers *)

(** Unsigned C integers are integers of [Z] reduced modulo [2 ^ bits]. *)
Definition wrap (bits x : Z) : Z := x mod 2 ^ bits.

Definition u32 (x : Z) : Z := wrap 32 x.
Definition u64 (x : Z) : Z := wrap 64 x.

(** [size_t] and [lbaint_t] are 32 or 64 bits wide depending on the target
    and on CONFIG_SYS_64BIT_LBA; both are left to the build. *)
Inductive width : Type := W32 | W64.

Definition bits (w : width) : Z :=
  match w with W32 => 32 | W64 => 64 end.

Record arch : Type := {
  lbaint_width : width;
  size_t_width : width
}.

Definition lbaint (A : arch) (x : Z) : Z := wrap (bits (lbaint_width A)) x.
Definition size_t (A : arch) (x : Z) : Z := wrap (bits (size_t_width A)) x.

Definition nonzero (x : Z) : bool := negb (x =? 0).

(** linux/errno.h and part.h *)
Definition ENOENT : Z := 2.
Definition ENODEV : Z := 19.
Definition PART_NAME_LEN : nat := 32.

(** ** Data *)

Definition buffer : Type := list Byte.byte.

(** The fields of [struct mtd_info] the backend reads: [size] is a
    uint64_t, [writesize] and [erasesize] are uint32_t. *)
Record mtd_info : Type := {
  mtd_name : string;
  mtd_size : Z;
  writesize : Z;
  erasesize : Z
}.

(** A [struct mtd_info *] as returned by [get_mtd_device_nm]: a live
    device, or [ERR_PTR(-errno)] with [1 <= errno <= MAX_ERRNO].  IS_ERR
    is the test for the second constructor, and PTR_ERR yields
    [Z.neg errno] there. *)
Inductive mtd_ptr : Type :=
| Handle (m : mtd_info)
| ERR_PTR (errno : positive).

(** The fields of [struct disk_partition] the backend fills in. *)
Record disk_partition : Type := {
  part_start : Z;
  part_size : Z;
  part_blksz : Z;
  part_name : string
}.

(** A C string behind a [const char *]; [None] is the null pointer. *)
Definition cstring : Type := option string.

(** [*s] for a non-null C string: its first character, NUL when empty. *)
Definition cstr_head (s : string) : ascii :=
  match s with
  | EmptyString => Ascii.zero
  | String c _ => c
  end.

(** [strncpy(dst, src, n)] seen as the string left in [dst]. *)
Definition strncpy (src : string) (n : nat) : string := substring 0 n src.

(** One request of the sparse driver to its storage callbacks. *)
Inductive chunk : Type :=
| ChunkWrite (blk blkcnt : Z) (data : buffer)
| ChunkReserve (blk blkcnt : Z).

(** ** The environment and the trace *)

Inductive event : Type :=
| EvProbe
| EvGet (name : cstring) (res : mtd_ptr)
| EvPut (m : mtd_info)
| EvErase (m : mtd_info) (addr len : Z)
| EvWrite (m : mtd_info) (to len : Z) (buf : buffer)
| EvFail (msg : string)
| EvOkay.

Arguments EvFail msg%_string.

(** The MTD subsystem and the image-sparse helpers, seen from the backend. *)
Record mtd_env (W : Type) : Type := {
  env_probe : W -> W;
  env_get : cstring -> W -> mtd_ptr * W;
  env_put : mtd_info -> W -> W;
  env_erase : mtd_info -> Z -> Z -> W -> Z * W;
  env_write : mtd_info -> Z -> Z -> buffer -> W -> (Z * Z) * W;
  env_is_sparse : buffer -> bool;
  env_sparse_chunks : Z -> Z -> buffer -> list chunk;
  env_sparse_msg : string
}.

Arguments env_probe {W}.
Arguments env_get {W}.
Arguments env_put {W}.
Arguments env_erase {W}.
Arguments env_write {W}.
Arguments env_is_sparse {W}.
Arguments env_sparse_chunks {W}.
Arguments env_sparse_msg {W}.

Record world (W : Type) : Type := {
  hw : W;
  trace : list event
}.

Arguments hw {W}.
Arguments trace {W}.

(** What stops a run: an integer division by zero, or the use of an
    error pointer as a device. *)
Inductive fault : Type := DivByZero | BadPointer.

Inductive outcome (W A : Type) : Type :=
| Ret (a : A) (w : world W)
| Trap (f : fault) (w : world W).

Arguments Ret {W A}.
Arguments Trap {W A}.

Definition M (W A : Type) : Type := world W -> outcome W A.

Definition ret {W A : Type} (a : A) : M W A := fun w => Ret a w.

Definition bind {W A B : Type} (c : M W A) (k : A -> M W B) : M W B :=
  fun w =>
    match c w with
    | Ret a w' => k a w'
    | Trap f w' => Trap f w'
    end.

Definition trap {W A : Type} (f : fault) : M W A := fun w => Trap f w.

Declare Scope fb_scope.
Delimit Scope fb_scope with fb.
Notation "x <- c ;; k" := (bind c (fun x => k))
  (at level 61, c at next level, right associativity) : fb_scope.
Notation "' pat <- c ;; k" := (bind c (fun x => match x with pat => k end))
  (at level 61, pat pattern, c at next level, right associativity) : fb_scope.
Notation "c ;; k" := (bind c (fun _ => k))
  (at level 61, right associativity) : fb_scope.
Local Open Scope fb_scope.

Definition log {W : Type} (w : world W) (h : W) (e : event) : world W :=
  {| hw := h; trace := trace w ++ [e] |}.

(** Whether control falls through to the end of the function or left it. *)
Inductive flow : Type := Continue | Returned.

(** The storage description handed to the sparse driver.  The callbacks
    receive the description itself; here they receive its data fields. *)
Record sparse_fields : Type := {
  blksz : Z;
  start : Z;
  size : Z;
  priv : mtd_info
}.

Record sparse_storage (W : Type) : Type := {
  fields : sparse_fields;
  sp_write : sparse_fields -> Z -> Z -> buffer -> M W Z;
  sp_reserve : sparse_fields -> Z -> Z -> M W Z;
  sp_mssg : string -> M W unit
}.

Arguments fields {W}.
Arguments sp_write {W}.
Arguments sp_reserve {W}.
Arguments sp_mssg {W}.

(** Events of a trace, by kind. *)
Definition releases (t : list event) : list mtd_info :=
  flat_map (fun e => match e with EvPut m => [m] | _ => [] end) t.

Definition acquisitions (t : list event) : list mtd_info :=
  flat_map (fun e => match e with EvGet _ (Handle m) => [m] | _ => [] end) t.

Definition probes (t : list event) : nat :=
  List.length (filter (fun e => match e with EvProbe => true | _ => false end) t).

Definition lookups (t : list event) : nat :=
  List.length (filter (fun e => match e with EvGet _ _ => true | _ => false end) t).

Definition erases (t : list event) : list (mtd_info * Z * Z) :=
  flat_map (fun e => match e with EvErase m a l => [(m, a, l)] | _ => [] end) t.

Definition programs (t : list event) : list (mtd_info * Z * Z) :=
  flat_map (fun e => match e with EvWrite m o l _ => [(m, o, l)] | _ => [] end) t.

(** ** The backend *)

Section Backend.

Context {W : Type}.
Variable E : mtd_env W.
Variable A : arch.

(** *** Calls into the collaborators, each leaving its event *)

Definition mtd_probe_devices : M W unit :=
  fun w => Ret tt (log w (env_probe E (hw w)) EvProbe).

Definition get_mtd_device_nm (name : cstring) : M W mtd_ptr :=
  fun w =>
    let '(p, h) := env_get E name (hw w) in
    Ret p (log w h (EvGet name p)).

Definition put_mtd_device (m : mtd_info) : M W unit :=
  fun w => Ret tt (log w (env_put E m (hw w)) (EvPut m)).

Definition mtd_erase (m : mtd_info) (addr len : Z) : M W Z :=
  fun w =>
    let '(r, h) := env_erase E m addr len (hw w) in
    Ret r (log w h (EvErase m addr len)).

Definition mtd_write (m : mtd_info) (to len : Z) (buf : buffer)
  : M W (Z * Z) :=
  fun w =>
    let '(r, h) := env_write E m to len buf (hw w) in
    Ret r (log w h (EvWrite m to len buf)).

Definition fastboot_fail (msg : string) : M W unit :=
  fun w => Ret tt (log w (hw w) (EvFail msg)).

Definition fastboot_okay : M W unit :=
  fun w => Ret tt (log w (hw w) EvOkay).

(** [mtd->field] through a pointer that may be an error pointer. *)
Definition deref (p : mtd_ptr) : M W mtd_info :=
  match p with
  | Handle m => ret m
  | ERR_PTR _ => trap BadPointer
  end.

(** Unsigned [a / b] and [a % b]. *)
Definition udiv (a b : Z) : M W Z :=
  if b =? 0 then trap DivByZero else ret (a / b).

Definition umod (a b : Z) : M W Z :=
  if b =? 0 then trap DivByZero else ret (a mod b).

(** *** get_mtd_device_by_name

    Returns the [int] result together with what was stored in [*mtd]. *)
Definition get_mtd_device_by_name (name : cstring) : M W (Z * mtd_ptr) :=
  mtd_probe_devices ;;
  mtd <- get_mtd_device_nm name ;;
  match mtd with
  | ERR_PTR e =>
      let r := Z.neg e in
      if r =? - ENODEV then
        mtd_probe_devices ;;
        mtd <- get_mtd_device_nm name ;;
        match mtd with
        | ERR_PTR e' => ret (Z.neg e', mtd)
        | Handle _ => ret (0, mtd)
        end
      else ret (r, mtd)
  | Handle _ => ret (0, mtd)
  end.

(** *** fb_mtd_sparse_write, fb_mtd_sparse_reserve *)
Definition fb_mtd_sparse_write (info : sparse_fields)
    (blk blkcnt : Z) (data : buffer) : M W Z :=
  let mtd := priv info in
  let len := size_t A (lbaint A (blkcnt * blksz info)) in
  let offset := u32 (lbaint A (blk * blksz info)) in
  '(r, _) <- mtd_write mtd offset len data ;;
  if nonzero r then ret 0 else ret blkcnt.

Definition fb_mtd_sparse_reserve (info : sparse_fields)
    (blk blkcnt : Z) : M W Z :=
  ret blkcnt.

(** *** write_sparse_image *)

(** Modelled from the spec: [write_sparse_image] (lib/image-sparse.c is
    not among the sources).  Given the block size and the region size in
    blocks it parses the payload into chunk requests and drives the two
    callbacks with them; a write callback that reports zero chunks
    committed aborts the whole transfer, and the driver reports that
    failure itself through [mssg]. *)
Fixpoint drive_chunks (info : sparse_storage W) (cs : list chunk)
  : M W Z :=
  match cs with
  | [] => ret 0
  | ChunkWrite blk blkcnt data :: rest =>
      n <- sp_write info (fields info) blk blkcnt data ;;
      if n =? 0 then
        sp_mssg info (env_sparse_msg E) ;;
        ret (-1)
      else drive_chunks info rest
  | ChunkReserve blk blkcnt :: rest =>
      sp_reserve info (fields info) blk blkcnt ;;
      drive_chunks info rest
  end.

Definition write_sparse_image (info : sparse_storage W)
    (part : cstring) (data : buffer) : M W Z :=
  drive_chunks info
    (env_sparse_chunks E (blksz (fields info)) (size (fields info)) data).

(** *** fastboot_spi_flash_get_part_info *)
Definition name_not_given (part : cstring) : bool :=
  match part with
  | None => true
  | Some s => Ascii.eqb (cstr_head s) Ascii.zero
  end.

Definition fastboot_spi_flash_get_part_info (part : cstring)
    (part_info : disk_partition) : M W (Z * disk_partition) :=
  if name_not_given part then
    fastboot_fail "partition not given" ;;
    ret (- ENOENT, part_info)
  else
    '(r, mtd) <- get_mtd_device_by_name part ;;
    if nonzero r then
      fastboot_fail "partition not found" ;;
      ret (r, part_info)
    else
      m <- deref mtd ;;
      let info :=
        {| part_start := 0;
           part_size := lbaint A (mtd_size m);
           part_blksz := writesize m;
           part_name := strncpy (mtd_name m) PART_NAME_LEN |} in
      put_mtd_device m ;;
      ret (0, info).

(** *** fastboot_spi_flash_erase *)
Definition fastboot_spi_flash_erase (cmd : cstring) : M W unit :=
  '(r, mtd) <- get_mtd_device_by_name cmd ;;
  if nonzero r then fastboot_fail "partition not found"
  else
    m <- deref mtd ;;
    r <- mtd_erase m 0 (mtd_size m) ;;
    put_mtd_device m ;;
    if nonzero r then fastboot_fail "failed erasing mtd device"
    else fastboot_okay.

(** *** fastboot_spi_flash_write *)

(** [instr.len] of the raw branch, from the download size to the clamp. *)
Definition raw_erase_len (m : mtd_info) (download_bytes : Z) : M W Z :=
  let len := download_bytes in
  r <- umod len (erasesize m) ;;
  len <- (if nonzero r then
            q <- udiv len (erasesize m) ;;
            ret (u64 ((q + 1) * erasesize m))
          else ret len) ;;
  ret (if len >? mtd_size m then mtd_size m else len).

Definition fastboot_spi_flash_write (cmd : cstring)
    (download_buffer : buffer) (download_bytes : Z) : M W unit :=
  '(r, mtd) <- get_mtd_device_by_name cmd ;;
  if nonzero r then fastboot_fail "partition not found"
  else
    m <- deref mtd ;;
    fl <- (if env_is_sparse E download_buffer then
             let sparse_blksz := lbaint A (writesize m) in
             sz <- udiv (mtd_size m) sparse_blksz ;;
             let sparse :=
               {| fields := {| blksz := sparse_blksz;
                               start := 0;
                               size := lbaint A sz;
                               priv := m |};
                  sp_write := fb_mtd_sparse_write;
                  sp_reserve := fb_mtd_sparse_reserve;
                  sp_mssg := fastboot_fail |} in
             write_sparse_image sparse cmd download_buffer ;;
             ret Continue
           else
             len <- raw_erase_len m download_bytes ;;
             r <- mtd_erase m 0 len ;;
             if nonzero r then
               fastboot_fail "erase failed" ;;
               put_mtd_device m ;;
               ret Returned
             else
               '(r, _) <- mtd_write m 0 (size_t A download_bytes)
                            download_buffer ;;
               (if nonzero r then fastboot_fail "write failed"
                else fastboot_okay) ;;
               ret Continue) ;;
    match fl with
    | Returned => ret tt
    | Continue => put_mtd_device m
    end.

End Backend.


(** ** A simulated flash, to run the backend on *)

Record flash : Type := {
  probed : nat;
  ready_after : nat;
  parts : list mtd_info;
  refs : Z;
  erase_rc : Z;
  write_rc : Z
}.

Definition flash_find (name : cstring) (f : flash) : option mtd_info :=
  match name with
  | None => None
  | Some s => find (fun m => String.eqb (mtd_name m) s) (parts f)
  end.

Definition flash_probe (f : flash) : flash :=
  {| probed := S (probed f); ready_after := ready_after f;
     parts := parts f; refs := refs f;
     erase_rc := erase_rc f; write_rc := write_rc f |}.

Definition flash_ref (d : Z) (f : flash) : flash :=
  {| probed := probed f; ready_after := ready_after f;
     parts := parts f; refs := refs f + d;
     erase_rc := erase_rc f; write_rc := write_rc f |}.

Definition flash_get (name : cstring) (f : flash) : mtd_ptr * flash :=
  if (probed f <? ready_after f)%nat then (ERR_PTR 19, f)
  else match flash_find name f with
       | Some m => (Handle m, flash_ref 1 f)
       | None => (ERR_PTR 19, f)
       end.

Definition sparse_magic (b : buffer) : bool :=
  match b with
  | Byte.x3a :: Byte.xff :: Byte.x26 :: Byte.xed :: _ => true
  | _ => false
  end.

Definition flash_env : mtd_env flash :=
  {| env_probe := flash_probe;
     env_get := flash_get;
     env_put := fun _ f => flash_ref (-1) f;
     env_erase := fun _ _ _ f => (erase_rc f, f);
     env_write := fun _ _ len _ f =>
                    ((write_rc f, if write_rc f =? 0 then len else 0), f);
     env_is_sparse := sparse_magic;
     env_sparse_chunks := fun _ sz b =>
                            [ChunkWrite 0 1 b; ChunkWrite (sz / 2) 1 b];
     env_sparse_msg := "flash write failure" |}.

Definition KiB : Z := 1024.
Definition MiB : Z := 1024 * 1024.

Definition boot_part : mtd_info :=
  {| mtd_name := "boot"; mtd_size := 4 * MiB;
     writesize := 2 * KiB; erasesize := 128 * KiB |}.

Definition huge_part : mtd_info :=
  {| mtd_name := "data"; mtd_size := 8 * 1024 * MiB;
     writesize := 2 * KiB; erasesize := 128 * KiB |}.

Definition flash0 : flash :=
  {| probed := 0; ready_after := 0; parts := [boot_part; huge_part];
     refs := 0; erase_rc := 0; write_rc := 0 |}.

Definition lazy_flash : flash :=
  {| probed := 0; ready_after := 2; parts := [boot_part];
     refs := 0; erase_rc := 0; write_rc := 0 |}.

Definition bad_erase_flash : flash :=
  {| probed := 0; ready_after := 0; parts := [boot_part];
     refs := 0; erase_rc := -5; write_rc := 0 |}.

Definition bad_write_flash : flash :=
  {| probed := 0; ready_after := 0; parts := [boot_part];
     refs := 0; erase_rc := 0; write_rc := -5 |}.

Definition sparse_image : buffer :=
  [Byte.x3a; Byte.xff; Byte.x26; Byte.xed].

Definition boot0 (f : flash) : world flash := {| hw := f; trace := [] |}.

Definition arm32 : arch := {| lbaint_width := W32; size_t_width := W32 |}.
Definition arm64 : arch := {| lbaint_width := W64; size_t_width := W64 |}.

(** ** Runs and their events *)

Definition final {W A : Type} (o : outcome W A) : world W :=
  match o with Ret _ w => w | Trap _ w => w end.

Definition completes {W A : Type} (o : outcome W A) : bool :=
  match o with Ret _ _ => true | Trap _ _ => false end.

(** The events a computation appended to the trace it started from. *)
Definition run_events {W A : Type} (c : M W A) (w : world W) : list event :=
  skipn (List.length (trace w)) (trace (final (c w))).

(** The handle a resolver run left its caller with, if any. *)
Definition resolved {W : Type} (o : outcome W (Z * mtd_ptr)) : list mtd_info :=
  match o with
  | Ret (_, Handle m) _ => [m]
  | _ => []
  end.

(** The lookup answered [ERR_PTR(-ENODEV)]: the device is not there yet. *)
Definition not_yet_available (p : mtd_ptr) : bool :=
  match p with
  | ERR_PTR e => Z.neg e =? - ENODEV
  | Handle _ => false
  end.

(** A run that returns and whose releases and acquisitions are both [hs]. *)
Definition balanced {W T : Type} (c : M W T) (w : world W)
    (hs : list mtd_info) : Prop :=
  completes (c w) = true
  /\ releases (run_events c w) = hs
  /\ acquisitions (run_events c w) = hs.

(** What a computation returned, if it returned. *)
Definition value {W A : Type} (o : outcome W A) : option A :=
  match o with Ret a _ => Some a | Trap _ _ => None end.

(** [ceil (a / b)] for a positive [b]. *)
Definition ceil_div (a b : Z) : Z := (a + b - 1) / b.

(** The value [raw_erase_len] computes when its divisions are defined. *)
Definition erase_len (m : mtd_info) (download_bytes : Z) : Z :=
  let len := download_bytes in
  let len :=
    if nonzero (len mod erasesize m)
    then u64 ((len / erasesize m + 1) * erasesize m)
    else len in
  if len >? mtd_size m then mtd_size m else len.

(** A device whose page and block sizes are positive uint32_t values. *)
Definition granular (m : mtd_info) : Prop :=
  0 < writesize m < 2 ^ 32 /\ 0 < erasesize m < 2 ^ 32.

(** The [struct sparse_storage] that [fastboot_spi_flash_write] fills in. *)
Definition backend_storage {W : Type} (E : mtd_env W) (A : arch)
    (f : sparse_fields) : sparse_storage W :=
  {| fields := f;
     sp_write := fb_mtd_sparse_write E A;
     sp_reserve := fb_mtd_sparse_reserve;
     sp_mssg := fastboot_fail |}.

(** The responses handed to the protocol layer, in order. *)
Definition responses (t : list event) : list event :=
  filter (fun e => match e with EvFail _ | EvOkay => true | _ => false end) t.

(** The calls into the MTD subsystem, in order. *)
Definition device_calls (t : list event) : list event :=
  filter (fun e => match e with EvFail _ | EvOkay => false | _ => true end) t.

(** What follows the first release of a handle. *)
Fixpoint after_release (t : list event) : list event :=
  match t with
  | [] => []
  | EvPut _ :: rest => rest
  | _ :: rest => after_release rest
  end.

(** An event the sparse driver may cause on device [m]: a program call
    on [m] at an offset that fits 32 bits, or a failure response. *)
Definition program_or_failure (m : mtd_info) (e : event) : Prop :=
  match e with
  | EvWrite m' to _ _ => m' = m /\ 0 <= to < 2 ^ 32
  | EvFail _ => True
  | _ => False
  end.

(** The weak board hooks, which do nothing and report success. *)
Definition board_fastboot_spi_flash_write_setup : Z := 0.
Definition board_fastboot_spi_flash_erase_setup : Z := 0.

(** Bring a world built by successive [log]s to the form
    [trace w ++ [e1; ...; en]]. *)
Ltac trace_norm :=
  repeat (cbn [hw trace fst snd]; rewrite <- ?app_assoc; cbn [app]).

(** ** Properties of the resolver *)

Section Resolver.

Context {W : Type}.
Variable E : mtd_env W.

Lemma skipn_length_app (T : Type) (l r : list T) :
  skipn (List.length l) (l ++ r) = r.
Proof.
  induction l as [|x l IH]; cbn; [reflexivity | exact IH].
Qed.

Lemma run_events_app (T : Type) (c : M W T) (w : world W) (evs : list event) :
  trace (final (c w)) = trace w ++ evs -> run_events c w = evs.
Proof.
  intros H. unfold run_events. rewrite H. apply skipn_length_app.
Qed.

(** The resolver, read off the answers of the environment. *)
Lemma get_mtd_device_by_name_eq (name : cstring) (w : world W) :
  let first := env_get E name (env_probe E (hw w)) in
  let second := env_get E name (env_probe E (snd first)) in
  get_mtd_device_by_name E name w =
    match fst first with
    | Handle m =>
        Ret (0, Handle m)
            {| hw := snd first;
               trace := trace w ++ [EvProbe; EvGet name (Handle m)] |}
    | ERR_PTR e =>
        if not_yet_available (ERR_PTR e) then
          Ret (match fst second with
               | Handle _ => 0
               | ERR_PTR e' => Z.neg e'
               end, fst second)
              {| hw := snd second;
                 trace := trace w ++ [EvProbe; EvGet name (ERR_PTR e);
                                      EvProbe; EvGet name (fst second)] |}
        else
          Ret (Z.neg e, ERR_PTR e)
              {| hw := snd first;
                 trace := trace w ++ [EvProbe; EvGet name (ERR_PTR e)] |}
    end.
Proof.
  intros first second. subst first second.
  unfold get_mtd_device_by_name, bind, mtd_probe_devices,
    get_mtd_device_nm, log, ret, not_yet_available.
  cbn [hw trace].
  destruct (env_get E name (env_probe E (hw w))) as [p1 h2].
  cbn [fst snd hw trace].
  destruct p1 as [m|e]; rewrite <- ?app_assoc; cbn [app];
    [reflexivity|].
  destruct (Z.neg e =? - ENODEV); cbn [hw trace]; [|reflexivity].
  destruct (env_get E name (env_probe E h2)) as [p2 h4].
  cbn [fst snd hw trace].
  destruct p2; rewrite <- ?app_assoc; cbn [app]; reflexivity.
Qed.

Lemma firstn_2_app (T : Type) (a b : T) (l t : list T) :
  firstn 2 l = [a; b] -> firstn 2 (l ++ t) = [a; b].
Proof.
  destruct l as [|x [|y l]]; cbn; intros H; try discriminate; exact H.
Qed.

(** Every resolver run returns.  It leaves either a device and 0, or an
    error pointer and its negative errno; it enumerates and looks up
    first, acquires exactly the device it returns, and releases, erases,
    programs and reports nothing. *)
Lemma resolver_run (name : cstring) (w : world W) :
  exists r p w1 evs,
    get_mtd_device_by_name E name w = Ret (r, p) w1
    /\ trace w1 = trace w ++ evs
    /\ firstn 2 evs =
         [EvProbe; EvGet name (fst (env_get E name (env_probe E (hw w))))]
    /\ releases evs = [] /\ erases evs = [] /\ programs evs = []
    /\ (forall msg, ~ In (EvFail msg) evs)
    /\ match p with
       | Handle m => r = 0 /\ acquisitions evs = [m]
       | ERR_PTR e => r = Z.neg e /\ acquisitions evs = []
       end.
Proof.
  pose proof (get_mtd_device_by_name_eq name w) as Heq.
  cbv zeta in Heq.
  destruct (env_get E name (env_probe E (hw w))) as [p1 h2].
  cbn [fst snd] in *.
  destruct p1 as [m|e].
  - eexists 0, (Handle m), _, [EvProbe; EvGet name (Handle m)].
    rewrite Heq. cbn. intuition congruence.
  - destruct (not_yet_available (ERR_PTR e)).
    + destruct (env_get E name (env_probe E h2)) as [p2 h4].
      cbn [fst snd] in *.
      eexists _, p2, _,
        [EvProbe; EvGet name (ERR_PTR e); EvProbe; EvGet name p2].
      rewrite Heq. split; [reflexivity|].
      cbn [trace]. split; [reflexivity|].
      destruct p2; cbn; intuition congruence.
    + eexists _, (ERR_PTR e), _, [EvProbe; EvGet name (ERR_PTR e)].
      rewrite Heq. cbn. intuition congruence.
Qed.

Lemma resolver_success (name : cstring) (w : world W) (m : mtd_info) :
  resolved (get_mtd_device_by_name E name w) = [m] ->
  exists w1 evs,
    get_mtd_device_by_name E name w = Ret (0, Handle m) w1
    /\ trace w1 = trace w ++ evs
    /\ run_events (get_mtd_device_by_name E name) w = evs
    /\ releases evs = [] /\ erases evs = [] /\ programs evs = []
    /\ acquisitions evs = [m].
Proof.
  intros Hm.
  destruct (resolver_run name w)
    as (r & p & w1 & evs & Hres & Htr & _ & Hr & He & Hp & _ & Hacq).
  rewrite Hres in Hm. destruct p as [m'|e]; [|discriminate].
  injection Hm as ->. destruct Hacq as [-> Hacq].
  exists w1, evs. repeat split; try assumption.
  apply run_events_app. rewrite Hres. exact Htr.
Qed.

Lemma resolver_failure (name : cstring) (w : world W) :
  resolved (get_mtd_device_by_name E name w) = [] ->
  exists e w1 evs,
    get_mtd_device_by_name E name w = Ret (Z.neg e, ERR_PTR e) w1
    /\ trace w1 = trace w ++ evs
    /\ run_events (get_mtd_device_by_name E name) w = evs
    /\ releases evs = [] /\ acquisitions evs = []
    /\ (forall msg, ~ In (EvFail msg) evs).
Proof.
  intros Hm.
  destruct (resolver_run name w)
    as (r & p & w1 & evs & Hres & Htr & _ & Hr & He & Hp & Hf & Hacq).
  rewrite Hres in Hm. destruct p as [m'|e]; [discriminate|].
  destruct Hacq as [-> Hacq].
  exists e, w1, evs. repeat split; try assumption.
  apply run_events_app. rewrite Hres. exact Htr.
Qed.

(** C4: the resolver enumerates and looks the name up; it enumerates and
    looks up a second time exactly when the first lookup answered
    [ERR_PTR(-ENODEV)], and whatever the second lookup answers is final.
    Any other first error is returned at once. *)
Theorem resolver_retries_once (name : cstring) (w : world W) :
  let first := env_get E name (env_probe E (hw w)) in
  let second := env_get E name (env_probe E (snd first)) in
  get_mtd_device_by_name E name w =
    match fst first with
    | Handle m =>
        Ret (0, Handle m)
            {| hw := snd first;
               trace := trace w ++ [EvProbe; EvGet name (Handle m)] |}
    | ERR_PTR e =>
        if not_yet_available (ERR_PTR e) then
          Ret (match fst second with
               | Handle _ => 0
               | ERR_PTR e' => Z.neg e'
               end, fst second)
              {| hw := snd second;
                 trace := trace w ++ [EvProbe; EvGet name (ERR_PTR e);
                                      EvProbe; EvGet name (fst second)] |}
        else
          Ret (Z.neg e, ERR_PTR e)
              {| hw := snd first;
                 trace := trace w ++ [EvProbe; EvGet name (ERR_PTR e)] |}
    end
  /\ probes (run_events (get_mtd_device_by_name E name) w) =
       (if not_yet_available (fst first) then 2%nat else 1%nat)
  /\ lookups (run_events (get_mtd_device_by_name E name) w) =
       probes (run_events (get_mtd_device_by_name E name) w).
Proof.
  intros first second.
  pose proof (get_mtd_device_by_name_eq name w) as Heq.
  cbv zeta in Heq. fold first in Heq. fold second in Heq.
  split; [exact Heq|].
  assert (Hev : run_events (get_mtd_device_by_name E name) w =
    match fst first with
    | Handle m => [EvProbe; EvGet name (Handle m)]
    | ERR_PTR e =>
        if not_yet_available (ERR_PTR e)
        then [EvProbe; EvGet name (ERR_PTR e);
              EvProbe; EvGet name (fst second)]
        else [EvProbe; EvGet name (ERR_PTR e)]
    end).
  { apply run_events_app. rewrite Heq.
    destruct (fst first) as [m|e]; [reflexivity|].
    destruct (not_yet_available (ERR_PTR e)); reflexivity. }
  rewrite Hev.
  destruct (fst first) as [m|e]; [split; reflexivity|].
  destruct (not_yet_available (ERR_PTR e)); split; reflexivity.
Qed.

End Resolver.

(** ** Properties of the three operations *)

Section Operations.

Context {W : Type}.
Variable E : mtd_env W.
Variable A : arch.

Lemma releases_app (s t : list event) :
  releases (s ++ t) = releases s ++ releases t.
Proof. apply flat_map_app. Qed.

Lemma acquisitions_app (s t : list event) :
  acquisitions (s ++ t) = acquisitions s ++ acquisitions t.
Proof. apply flat_map_app. Qed.

Lemma erases_app (s t : list event) :
  erases (s ++ t) = erases s ++ erases t.
Proof. apply flat_map_app. Qed.

Lemma programs_app (s t : list event) :
  programs (s ++ t) = programs s ++ programs t.
Proof. apply flat_map_app. Qed.

(** The erase operation, read off the resolver's outcome and the answer
    of the erase primitive. *)
Lemma fastboot_spi_flash_erase_eq (cmd : cstring) (w : world W) :
  fastboot_spi_flash_erase E cmd w =
    match get_mtd_device_by_name E cmd w with
    | Ret (_, Handle m) w1 =>
        let er := env_erase E m 0 (mtd_size m) (hw w1) in
        Ret tt
          {| hw := env_put E m (snd er);
             trace := trace w1 ++
               [EvErase m 0 (mtd_size m);
                EvPut m;
                if nonzero (fst er)
                then EvFail "failed erasing mtd device"
                else EvOkay] |}
    | Ret (_, ERR_PTR _) w1 =>
        Ret tt {| hw := hw w1;
                  trace := trace w1 ++ [EvFail "partition not found"] |}
    | Trap f w1 => Trap f w1
    end.
Proof.
  destruct (resolver_run E cmd w)
    as (r & p & w1 & evs & Hres & _ & _ & _ & _ & _ & _ & Hp).
  unfold fastboot_spi_flash_erase, bind. rewrite Hres.
  destruct p as [m|e]; destruct Hp as [-> _]; cbn.
  - unfold mtd_erase, put_mtd_device, fastboot_fail, fastboot_okay, log.
    destruct (env_erase E m 0 (mtd_size m) (hw w1)) as [rc h].
    cbn [fst snd hw trace].
    destruct (nonzero rc); trace_norm; reflexivity.
  - reflexivity.
Qed.

(** C8: the erase operation reports "partition not found" when the
    resolver fails; otherwise it erases once, from offset 0 over
    [mtd_size], releases the handle, and only then reports "failed
    erasing mtd device" or success according to the erase primitive. *)
Theorem erase_whole_partition (cmd : cstring) (w : world W) :
  let res := get_mtd_device_by_name E cmd w in
  let w1 := final res in
  fastboot_spi_flash_erase E cmd w =
    match resolved res with
    | m :: _ =>
        let er := env_erase E m 0 (mtd_size m) (hw w1) in
        Ret tt
          {| hw := env_put E m (snd er);
             trace := trace w1 ++
               [EvErase m 0 (mtd_size m);
                EvPut m;
                if nonzero (fst er)
                then EvFail "failed erasing mtd device"
                else EvOkay] |}
    | [] =>
        Ret tt {| hw := hw w1;
                  trace := trace w1 ++ [EvFail "partition not found"] |}
    end.
Proof.
  intros res w1. subst res w1.
  rewrite fastboot_spi_flash_erase_eq.
  destruct (resolver_run E cmd w)
    as (r & p & w1 & rest & Hres & _).
  rewrite Hres. destruct p; reflexivity.
Qed.

(** C9: for a null and for an empty partition name,
    [fastboot_spi_flash_get_part_info] reports "partition not given" and
    returns [-ENOENT]; it calls nothing else, so nothing is enumerated or
    looked up and the environment is left as it was. *)
Theorem part_info_name_not_given (info : disk_partition) (w : world W) :
  fastboot_spi_flash_get_part_info E A None info w =
    Ret (- ENOENT, info)
        {| hw := hw w; trace := trace w ++ [EvFail "partition not given"] |}
  /\ fastboot_spi_flash_get_part_info E A (Some EmptyString) info w =
    Ret (- ENOENT, info)
        {| hw := hw w; trace := trace w ++ [EvFail "partition not given"] |}.
Proof.
  split; reflexivity.
Qed.

(** *** The raw branch of the write operation *)

Lemma raw_erase_len_eq (m : mtd_info) (L : Z) (w : world W) :
  erasesize m <> 0 ->
  raw_erase_len m L w = Ret (erase_len m L) w.
Proof.
  intros HE. apply Z.eqb_neq in HE.
  unfold raw_erase_len, erase_len, bind, umod, udiv, ret.
  rewrite HE. cbn.
  destruct (nonzero (L mod erasesize m)); rewrite ?HE; reflexivity.
Qed.

Lemma ceil_div_exact (a b : Z) :
  0 < b -> a mod b = 0 -> ceil_div a b * b = a.
Proof.
  intros Hb Hm. unfold ceil_div.
  pose proof (Z.div_mod a b ltac:(lia)) as Ha. rewrite Hm in Ha.
  assert (Hq : (a + b - 1) / b = a / b).
  { symmetry. apply (Z.div_unique _ _ _ (b - 1)); lia. }
  rewrite Hq. lia.
Qed.

Lemma ceil_div_round_up (a b : Z) :
  0 < b -> a mod b <> 0 -> ceil_div a b = a / b + 1.
Proof.
  intros Hb Hm. unfold ceil_div.
  pose proof (Z.div_mod a b ltac:(lia)) as Ha.
  pose proof (Z.mod_pos_bound a b Hb) as Hr.
  symmetry. apply (Z.div_unique _ _ _ (a mod b - 1)); lia.
Qed.

(** [ceil_div a b] is the least number of [b]-sized blocks that hold [a]. *)
Lemma ceil_div_least (a b k : Z) :
  0 < b -> (a <= k * b <-> ceil_div a b <= k).
Proof.
  intros Hb. unfold ceil_div. split; intros H.
  - assert ((a + b - 1) / b < k + 1); [|lia].
    apply Z.div_lt_upper_bound; lia.
  - pose proof (Z.div_mod (a + b - 1) b ltac:(lia)) as Ha.
    pose proof (Z.mod_pos_bound (a + b - 1) b Hb) as Hr.
    nia.
Qed.

Lemma erase_len_min (m : mtd_info) (L : Z) :
  0 <= L < 2 ^ 32 -> 0 < erasesize m < 2 ^ 32 ->
  erase_len m L =
    Z.min (mtd_size m) (ceil_div L (erasesize m) * erasesize m).
Proof.
  intros HL HE. unfold erase_len, nonzero, u64, wrap.
  destruct (Z.eqb_spec (L mod erasesize m) 0) as [Hm|Hm]; cbn [negb].
  - rewrite ceil_div_exact by lia.
    destruct (Z.gtb_spec L (mtd_size m)); lia.
  - rewrite ceil_div_round_up by lia.
    pose proof (Z.div_mod L (erasesize m) ltac:(lia)) as Hd.
    pose proof (Z.mod_pos_bound L (erasesize m) ltac:(lia)) as Hr.
    assert (Hq : 0 <= L / erasesize m) by (apply Z.div_pos; lia).
    rewrite Z.mod_small by (change (2 ^ 64) with 18446744073709551616;
                            change (2 ^ 32) with 4294967296 in *; nia).
    destruct (Z.gtb_spec ((L / erasesize m + 1) * erasesize m) (mtd_size m));
      lia.
Qed.

(** The write operation on a resolved device and a raw image, read off
    the answers of the erase and program primitives. *)
Lemma fastboot_spi_flash_write_raw_eq
    (cmd : cstring) (buf : buffer) (L : Z) (w w1 : world W) (m : mtd_info) :
  get_mtd_device_by_name E cmd w = Ret (0, Handle m) w1 ->
  env_is_sparse E buf = false ->
  erasesize m <> 0 ->
  fastboot_spi_flash_write E A cmd buf L w =
    let len := erase_len m L in
    let er := env_erase E m 0 len (hw w1) in
    if nonzero (fst er) then
      Ret tt
        {| hw := env_put E m (snd er);
           trace := trace w1 ++
             [EvErase m 0 len; EvFail "erase failed"; EvPut m] |}
    else
      let pr := env_write E m 0 (size_t A L) buf (snd er) in
      Ret tt
        {| hw := env_put E m (snd pr);
           trace := trace w1 ++
             [EvErase m 0 len;
              EvWrite m 0 (size_t A L) buf;
              if nonzero (fst (fst pr))
              then EvFail "write failed"
              else EvOkay;
              EvPut m] |}.
Proof.
  intros Hres Hraw HE.
  unfold fastboot_spi_flash_write, bind. rewrite Hres. cbn.
  rewrite Hraw, (raw_erase_len_eq m L w1 HE).
  unfold mtd_erase, mtd_write, put_mtd_device, fastboot_fail,
    fastboot_okay, log, ret.
  destruct (env_erase E m 0 (erase_len m L) (hw w1)) as [rc h].
  cbn [fst snd hw trace].
  destruct (nonzero rc); trace_norm; [reflexivity|].
  destruct (env_write E m 0 (size_t A L) buf h) as [[rc2 n] h2].
  cbn [fst snd hw trace].
  destruct (nonzero rc2); trace_norm; reflexivity.
Qed.

Lemma fastboot_spi_flash_write_unresolved
    (cmd : cstring) (buf : buffer) (L : Z) (w w1 : world W)
    (r : Z) (e : positive) :
  get_mtd_device_by_name E cmd w = Ret (r, ERR_PTR e) w1 ->
  fastboot_spi_flash_write E A cmd buf L w =
    Ret tt {| hw := hw w1;
              trace := trace w1 ++ [EvFail "partition not found"] |}.
Proof.
  intros Hres.
  destruct (resolver_run E cmd w)
    as (r' & p & w1' & evs & Hres' & _ & _ & _ & _ & _ & _ & Hp).
  rewrite Hres in Hres'. injection Hres' as <- <- <-.
  destruct Hp as [-> _].
  unfold fastboot_spi_flash_write, bind. rewrite Hres. reflexivity.
Qed.

(** *** The sparse branch of the write operation *)

Lemma fb_mtd_sparse_write_eq (f : sparse_fields) (blk blkcnt : Z)
    (data : buffer) (w : world W) :
  let len := size_t A (lbaint A (blkcnt * blksz f)) in
  let offset := u32 (lbaint A (blk * blksz f)) in
  let pr := env_write E (priv f) offset len data (hw w) in
  fb_mtd_sparse_write E A f blk blkcnt data w =
    Ret (if nonzero (fst (fst pr)) then 0 else blkcnt)
        {| hw := snd pr;
           trace := trace w ++ [EvWrite (priv f) offset len data] |}.
Proof.
  cbv zeta. unfold fb_mtd_sparse_write, bind, mtd_write, log, ret.
  destruct (env_write E (priv f) _ _ data (hw w)) as [[rc n] h].
  cbn [fst snd]. destruct (nonzero rc); reflexivity.
Qed.

(** In the driver, a write callback that returns 0 ends the transfer:
    the failure is reported and no later chunk is looked at. *)
Lemma drive_chunks_abort (info : sparse_storage W) (blk blkcnt : Z)
    (data : buffer) (rest : list chunk) (w w1 : world W) :
  sp_write info (fields info) blk blkcnt data w = Ret 0 w1 ->
  drive_chunks E info (ChunkWrite blk blkcnt data :: rest) w =
    (sp_mssg info (env_sparse_msg E) ;; ret (-1)) w1.
Proof.
  intros H. cbn [drive_chunks]. unfold bind at 1. rewrite H. reflexivity.
Qed.

(** Driven through the backend's callbacks, the driver always returns,
    and all it does to the device is program it. *)
Lemma drive_chunks_backend (f : sparse_fields) (cs : list chunk)
    (w : world W) :
  exists r w' evs,
    drive_chunks E (backend_storage E A f) cs w = Ret r w'
    /\ trace w' = trace w ++ evs
    /\ releases evs = [] /\ acquisitions evs = [] /\ erases evs = [].
Proof.
  revert w. induction cs as [|c cs IH]; intros w.
  - exists 0, w, []. cbn. rewrite app_nil_r. auto.
  - destruct c as [blk blkcnt data|blk blkcnt]; cbn [drive_chunks].
    + unfold bind at 1. cbn [sp_write fields backend_storage].
      rewrite fb_mtd_sparse_write_eq. cbv zeta.
      set (w1 := {| hw := _; trace := _ |}).
      destruct ((if nonzero _ then 0 else blkcnt) =? 0).
      * exists (-1), (log w1 (hw w1) (EvFail (env_sparse_msg E))),
          [EvWrite (priv f) (u32 (lbaint A (blk * blksz f)))
             (size_t A (lbaint A (blkcnt * blksz f))) data;
           EvFail (env_sparse_msg E)].
        split; [reflexivity|].
        subst w1. unfold log. trace_norm. cbn. auto.
      * destruct (IH w1) as (r & w' & evs & Hrun & Htr & Hr & Ha & He).
        exists r, w', (EvWrite (priv f) (u32 (lbaint A (blk * blksz f)))
                         (size_t A (lbaint A (blkcnt * blksz f))) data
                       :: evs).
        rewrite Hrun, Htr. subst w1. trace_norm. cbn. auto.
    + unfold bind at 1. cbn [sp_reserve backend_storage].
      unfold fb_mtd_sparse_reserve, ret. apply IH.
Qed.

(** The write operation on a resolved device and a sparse image: the
    driver runs, then the handle is released. *)
Lemma fastboot_spi_flash_write_sparse
    (cmd : cstring) (buf : buffer) (L : Z) (w w1 : world W) (m : mtd_info) :
  get_mtd_device_by_name E cmd w = Ret (0, Handle m) w1 ->
  env_is_sparse E buf = true ->
  lbaint A (writesize m) <> 0 ->
  exists h evs,
    fastboot_spi_flash_write E A cmd buf L w =
      Ret tt {| hw := env_put E m h;
                trace := trace w1 ++ evs ++ [EvPut m] |}
    /\ releases evs = [] /\ acquisitions evs = [] /\ erases evs = [].
Proof.
  intros Hres Hsp Hws. apply Z.eqb_neq in Hws.
  unfold fastboot_spi_flash_write, bind at 1. rewrite Hres. cbn.
  rewrite Hsp. unfold bind, udiv. rewrite Hws. cbn.
  unfold write_sparse_image. cbn [fields blksz size].
  set (f := {| blksz := lbaint A (writesize m); start := 0;
               size := lbaint A (mtd_size m / lbaint A (writesize m));
               priv := m |}).
  destruct (drive_chunks_backend f
              (env_sparse_chunks E (blksz f) (size f) buf) w1)
    as (r & w2 & evs & Hrun & Htr & Hr & Ha & He).
  unfold backend_storage in Hrun. cbn [blksz size f] in Hrun.
  rewrite Hrun. cbn.
  exists (hw w2), evs. unfold put_mtd_device, log. rewrite Htr.
  trace_norm. auto.
Qed.

(** The description handed to the driver: blocks of [writesize] bytes
    and [mtd_size / writesize] of them, as long as that count fits
    [lbaint_t]. *)
Lemma fastboot_spi_flash_write_geometry
    (cmd : cstring) (buf : buffer) (L : Z) (w w1 : world W) (m : mtd_info) :
  get_mtd_device_by_name E cmd w = Ret (0, Handle m) w1 ->
  env_is_sparse E buf = true ->
  granular m ->
  0 <= mtd_size m / writesize m < 2 ^ bits (lbaint_width A) ->
  fastboot_spi_flash_write E A cmd buf L w =
    (write_sparse_image E
       (backend_storage E A
          {| blksz := writesize m; start := 0;
             size := mtd_size m / writesize m; priv := m |})
       cmd buf ;;
     put_mtd_device E m) w1.
Proof.
  intros Hres Hsp [Hw _] Hsz.
  assert (Hb : lbaint A (writesize m) = writesize m).
  { unfold lbaint, wrap. apply Z.mod_small.
    destruct (lbaint_width A); cbn [bits];
      change (2 ^ 64) with 18446744073709551616;
      change (2 ^ 32) with 4294967296 in *; lia. }
  assert (Hs : lbaint A (mtd_size m / writesize m) =
               mtd_size m / writesize m).
  { unfold lbaint, wrap. apply Z.mod_small. exact Hsz. }
  assert (Hnz : (writesize m =? 0) = false) by (apply Z.eqb_neq; lia).
  unfold fastboot_spi_flash_write, bind at 1. rewrite Hres. cbn.
  rewrite Hsp, Hb. unfold bind at 2, udiv.
  rewrite Hnz.
  cbn. rewrite Hs. unfold backend_storage, bind.
  destruct (write_sparse_image E _ cmd buf w1); reflexivity.
Qed.

(** A sparse transfer is addressed exactly as long as the byte offsets
    fit 32 bits and the block count of the partition fits [lbaint_t]. *)
Lemma fb_mtd_sparse_write_in_range (f : sparse_fields) (blk blkcnt : Z)
    (data : buffer) (w : world W) :
  0 <= blk * blksz f < 2 ^ 32 ->
  0 <= blkcnt * blksz f < 2 ^ 32 ->
  programs (run_events (fb_mtd_sparse_write E A f blk blkcnt data) w) =
    [(priv f, blk * blksz f, blkcnt * blksz f)].
Proof.
  intros Ho Hl.
  assert (Hw : forall x k, 0 <= x < 2 ^ 32 -> wrap (bits k) x = x).
  { intros x k Hx. unfold wrap. apply Z.mod_small.
    destruct k; cbn [bits];
      change (2 ^ 64) with 18446744073709551616;
      change (2 ^ 32) with 4294967296 in *; lia. }
  erewrite run_events_app.
  2:{ rewrite fb_mtd_sparse_write_eq. cbv zeta. cbn [final trace].
      reflexivity. }
  unfold size_t, lbaint, u32.
  change (wrap 32) with (wrap (bits W32)).
  repeat rewrite (Hw (blk * blksz f)) by assumption.
  repeat rewrite (Hw (blkcnt * blksz f)) by assumption.
  reflexivity.
Qed.

(** *** The raw write, claim by claim *)

Lemma raw_write_events
    (cmd : cstring) (buf : buffer) (L : Z) (w : world W) (m : mtd_info) :
  resolved (get_mtd_device_by_name E cmd w) = [m] ->
  env_is_sparse E buf = false ->
  erasesize m <> 0 ->
  let w1 := final (get_mtd_device_by_name E cmd w) in
  let len := erase_len m L in
  let er := env_erase E m 0 len (hw w1) in
  let pr := env_write E m 0 (size_t A L) buf (snd er) in
  completes (fastboot_spi_flash_write E A cmd buf L w) = true
  /\ run_events (fastboot_spi_flash_write E A cmd buf L) w =
       run_events (get_mtd_device_by_name E cmd) w ++
       EvErase m 0 len ::
       (if nonzero (fst er)
        then [EvFail "erase failed"; EvPut m]
        else [EvWrite m 0 (size_t A L) buf;
              if nonzero (fst (fst pr))
              then EvFail "write failed"
              else EvOkay;
              EvPut m]).
Proof.
  intros Hm Hraw HE.
  destruct (resolver_success E cmd w m Hm)
    as (w1 & evs & Hres & Htr & Hev & _).
  rewrite Hev, Hres. cbn [final].
  rewrite (fastboot_spi_flash_write_raw_eq cmd buf L w w1 m Hres Hraw HE).
  cbv zeta.
  destruct (nonzero (fst (env_erase E m 0 (erase_len m L) (hw w1)))) eqn:Hrc.
  - split; [reflexivity|].
    apply run_events_app.
    rewrite (fastboot_spi_flash_write_raw_eq cmd buf L w w1 m Hres Hraw HE).
    cbv zeta. rewrite Hrc. cbn [final trace]. rewrite Htr.
    rewrite <- app_assoc. reflexivity.
  - split; [reflexivity|].
    apply run_events_app.
    rewrite (fastboot_spi_flash_write_raw_eq cmd buf L w w1 m Hres Hraw HE).
    cbv zeta. rewrite Hrc. cbn [final trace]. rewrite Htr.
    rewrite <- app_assoc. reflexivity.
Qed.

Lemma size_t_u32 (L : Z) : 0 <= L < 2 ^ 32 -> size_t A L = L.
Proof.
  intros HL. unfold size_t, wrap. apply Z.mod_small.
  destruct (size_t_width A); cbn [bits];
    change (2 ^ 64) with 18446744073709551616;
    change (2 ^ 32) with 4294967296 in *; lia.
Qed.

(** C2: in a raw write of [L] bytes to a partition of erase block size
    [E] and size [S], the erase primitive is called once, at offset 0,
    with length [min S (ceil (L / E) * E)]. *)
Theorem raw_write_erase_length
    (cmd : cstring) (buf : buffer) (L : Z) (w : world W) (m : mtd_info) :
  resolved (get_mtd_device_by_name E cmd w) = [m] ->
  env_is_sparse E buf = false ->
  0 <= L < 2 ^ 32 ->
  0 < erasesize m < 2 ^ 32 ->
  completes (fastboot_spi_flash_write E A cmd buf L w) = true
  /\ erases (run_events (fastboot_spi_flash_write E A cmd buf L) w) =
       [(m, 0, Z.min (mtd_size m)
                     (ceil_div L (erasesize m) * erasesize m))].
Proof.
  intros Hm Hraw HL HE.
  destruct (raw_write_events cmd buf L w m Hm Hraw ltac:(lia)) as [Hc Hev].
  split; [exact Hc|].
  destruct (resolver_success E cmd w m Hm)
    as (w1 & evs & _ & _ & Hrev & _ & Her & _).
  rewrite Hev, Hrev, erases_app, Her, (erase_len_min m L HL HE).
  repeat match goal with
         | |- context [if ?b then _ else _] => destruct b
         end; reflexivity.
Qed.

(** C3: in a raw write, when the erase primitive fails the operation
    reports "erase failed", releases the handle and returns; the program
    primitive is never called. *)
Theorem raw_write_erase_failure
    (cmd : cstring) (buf : buffer) (L : Z) (w : world W) (m : mtd_info) :
  resolved (get_mtd_device_by_name E cmd w) = [m] ->
  env_is_sparse E buf = false ->
  erasesize m <> 0 ->
  let w1 := final (get_mtd_device_by_name E cmd w) in
  let er := env_erase E m 0 (erase_len m L) (hw w1) in
  nonzero (fst er) = true ->
  fastboot_spi_flash_write E A cmd buf L w =
    Ret tt {| hw := env_put E m (snd er);
              trace := trace w1 ++ [EvErase m 0 (erase_len m L);
                                    EvFail "erase failed";
                                    EvPut m] |}
  /\ programs (run_events (fastboot_spi_flash_write E A cmd buf L) w) = [].
Proof.
  intros Hm Hraw HE w1 er Hfail.
  destruct (raw_write_events cmd buf L w m Hm Hraw HE) as [_ Hev].
  cbv zeta in Hev. fold w1 in Hev. fold er in Hev. rewrite Hfail in Hev.
  destruct (resolver_success E cmd w m Hm)
    as (w1' & evs & Hres & _ & Hrev & _ & _ & Hpr & _).
  split.
  - rewrite (fastboot_spi_flash_write_raw_eq cmd buf L w w1' m Hres Hraw HE).
    cbv zeta. subst er w1. rewrite Hres in *. cbn [final] in *.
    rewrite Hfail. reflexivity.
  - rewrite Hev, Hrev, programs_app, Hpr. reflexivity.
Qed.

(** C7: in a raw write whose erase succeeded, the program primitive is
    called once, at offset 0, with the whole download length [L], while
    the erase before it covered [min S (ceil (L / E) * E)]: the program
    length is not clamped to the partition size [S]. *)
Theorem raw_write_length_not_clamped
    (cmd : cstring) (buf : buffer) (L : Z) (w : world W) (m : mtd_info) :
  resolved (get_mtd_device_by_name E cmd w) = [m] ->
  env_is_sparse E buf = false ->
  0 <= L < 2 ^ 32 ->
  0 < erasesize m < 2 ^ 32 ->
  let w1 := final (get_mtd_device_by_name E cmd w) in
  let len := Z.min (mtd_size m) (ceil_div L (erasesize m) * erasesize m) in
  let er := env_erase E m 0 len (hw w1) in
  let pr := env_write E m 0 L buf (snd er) in
  nonzero (fst er) = false ->
  run_events (fastboot_spi_flash_write E A cmd buf L) w =
    run_events (get_mtd_device_by_name E cmd) w ++
    [EvErase m 0 len;
     EvWrite m 0 L buf;
     if nonzero (fst (fst pr)) then EvFail "write failed" else EvOkay;
     EvPut m]
  /\ erases (run_events (fastboot_spi_flash_write E A cmd buf L) w) =
       [(m, 0, len)]
  /\ programs (run_events (fastboot_spi_flash_write E A cmd buf L) w) =
       [(m, 0, L)].
Proof.
  intros Hm Hraw HL HE w1 len er pr Hok.
  destruct (raw_write_events cmd buf L w m Hm Hraw ltac:(lia)) as [_ Hev].
  cbv zeta in Hev. rewrite (erase_len_min m L HL HE) in Hev.
  rewrite (size_t_u32 L HL) in Hev.
  fold w1 in Hev. fold len in Hev. fold er in Hev. fold pr in Hev.
  rewrite Hok in Hev.
  destruct (resolver_success E cmd w m Hm)
    as (w1' & evs & _ & _ & Hrev & _ & Her & Hpr & _).
  rewrite Hev, Hrev, erases_app, programs_app, Her, Hpr.
  repeat split; destruct (nonzero (fst (fst pr))); reflexivity.
Qed.

(** *** Acquire and release *)

Lemma fastboot_spi_flash_get_part_info_eq
    (part : cstring) (info : disk_partition) (w : world W) :
  name_not_given part = false ->
  fastboot_spi_flash_get_part_info E A part info w =
    match get_mtd_device_by_name E part w with
    | Ret (_, Handle m) w1 =>
        Ret (0, {| part_start := 0;
                   part_size := lbaint A (mtd_size m);
                   part_blksz := writesize m;
                   part_name := strncpy (mtd_name m) PART_NAME_LEN |})
            {| hw := env_put E m (hw w1); trace := trace w1 ++ [EvPut m] |}
    | Ret (r, ERR_PTR _) w1 =>
        Ret (r, info)
            {| hw := hw w1;
               trace := trace w1 ++ [EvFail "partition not found"] |}
    | Trap f w1 => Trap f w1
    end.
Proof.
  intros Hn.
  destruct (resolver_run E part w)
    as (r & p & w1 & evs & Hres & _ & _ & _ & _ & _ & _ & Hp).
  unfold fastboot_spi_flash_get_part_info. rewrite Hn.
  unfold bind. rewrite Hres.
  destruct p as [m|e]; destruct Hp as [-> _]; reflexivity.
Qed.

Lemma erase_balanced (cmd : cstring) (w : world W) :
  balanced (fastboot_spi_flash_erase E cmd) w
    (resolved (get_mtd_device_by_name E cmd w)).
Proof.
  destruct (resolver_run E cmd w)
    as (r & p & w1 & evs & Hres & Htr & _ & Hr & _ & _ & _ & Hp).
  unfold balanced.
  pose proof (fastboot_spi_flash_erase_eq cmd w) as Heq.
  rewrite Hres in Heq. rewrite Hres.
  destruct p as [m|e]; destruct Hp as [-> Ha]; cbv zeta in Heq;
    cbn [resolved].
  - rewrite (run_events_app _ _ w
               (evs ++ [EvErase m 0 (mtd_size m); EvPut m;
                        if nonzero (fst (env_erase E m 0 (mtd_size m)
                                           (hw w1)))
                        then EvFail "failed erasing mtd device"
                        else EvOkay])).
    + rewrite Heq, releases_app, acquisitions_app, Hr, Ha.
      destruct (nonzero _); repeat split.
    + rewrite Heq. cbn [final trace]. rewrite Htr, <- app_assoc.
      reflexivity.
  - rewrite (run_events_app _ _ w
               (evs ++ [EvFail "partition not found"])).
    + rewrite Heq, releases_app, acquisitions_app, Hr, Ha.
      repeat split.
    + rewrite Heq. cbn [final trace]. rewrite Htr, <- app_assoc.
      reflexivity.
Qed.

Lemma part_info_balanced
    (part : cstring) (info : disk_partition) (w : world W) :
  balanced (fastboot_spi_flash_get_part_info E A part info) w
    (if name_not_given part then []
     else resolved (get_mtd_device_by_name E part w)).
Proof.
  unfold balanced.
  destruct (name_not_given part) eqn:Hn.
  - rewrite (run_events_app _ _ w [EvFail "partition not given"]);
      unfold fastboot_spi_flash_get_part_info; rewrite Hn;
      repeat split.
  - destruct (resolver_run E part w)
      as (r & p & w1 & evs & Hres & Htr & _ & Hr & _ & _ & _ & Hp).
    pose proof (fastboot_spi_flash_get_part_info_eq part info w Hn) as Heq.
    rewrite Hres in Heq. rewrite Hres.
    destruct p as [m|e]; destruct Hp as [-> Ha]; cbn [resolved].
    + rewrite (run_events_app _ _ w (evs ++ [EvPut m])).
      * rewrite Heq, releases_app, acquisitions_app, Hr, Ha.
        repeat split.
      * rewrite Heq. cbn [final trace]. rewrite Htr, <- app_assoc.
        reflexivity.
    + rewrite (run_events_app _ _ w
                 (evs ++ [EvFail "partition not found"])).
      * rewrite Heq, releases_app, acquisitions_app, Hr, Ha.
        repeat split.
      * rewrite Heq. cbn [final trace]. rewrite Htr, <- app_assoc.
        reflexivity.
Qed.

Lemma granular_lbaint (m : mtd_info) :
  granular m -> lbaint A (writesize m) <> 0.
Proof.
  intros [Hw _]. unfold lbaint, wrap. rewrite Z.mod_small; [lia|].
  destruct (lbaint_width A); cbn [bits];
    change (2 ^ 64) with 18446744073709551616;
    change (2 ^ 32) with 4294967296 in *; lia.
Qed.

Lemma write_balanced
    (cmd : cstring) (buf : buffer) (L : Z) (w : world W) :
  (forall m, In m (resolved (get_mtd_device_by_name E cmd w)) ->
             granular m) ->
  balanced (fastboot_spi_flash_write E A cmd buf L) w
    (resolved (get_mtd_device_by_name E cmd w)).
Proof.
  intros Hg.
  destruct (resolved (get_mtd_device_by_name E cmd w)) as [|m l] eqn:Hm.
  - destruct (resolver_failure E cmd w Hm)
      as (e & w1 & evs & Hres & Htr & _ & Hr & Ha & _).
    pose proof (fastboot_spi_flash_write_unresolved cmd buf L w w1 _ e Hres)
      as Heq.
    unfold balanced.
    rewrite (run_events_app _ _ w
               (evs ++ [EvFail "partition not found"])).
    + rewrite Heq, releases_app, acquisitions_app, Hr, Ha. repeat split.
    + rewrite Heq. cbn [final trace]. rewrite Htr, <- app_assoc.
      reflexivity.
  - assert (l = []) as ->.
    { destruct (get_mtd_device_by_name E cmd w) as [[r [m'|e]] w1|f w1];
        cbn in Hm; congruence. }
    specialize (Hg m (or_introl eq_refl)).
    destruct (resolver_success E cmd w m Hm)
      as (w1 & evs & Hres & Htr & Hrev & Hr & _ & _ & Ha).
    unfold balanced.
    destruct (env_is_sparse E buf) eqn:Hsp.
    + destruct (fastboot_spi_flash_write_sparse cmd buf L w w1 m Hres Hsp
                  (granular_lbaint m Hg))
        as (h & sev & Heq & Hsr & Hsa & _).
      rewrite (run_events_app _ _ w (evs ++ sev ++ [EvPut m])).
      * rewrite Heq, !releases_app, !acquisitions_app, Hr, Ha, Hsr, Hsa.
        repeat split.
      * rewrite Heq. cbn [final trace]. rewrite Htr, <- app_assoc.
        reflexivity.
    + destruct Hg as [_ HE].
      destruct (raw_write_events cmd buf L w m Hm Hsp ltac:(lia))
        as [Hc Hev].
      rewrite Hc, Hev, Hrev, releases_app, acquisitions_app, Hr, Ha.
      repeat match goal with
             | |- context [if ?b then _ else _] => destruct b
             end; repeat split.
Qed.

(** C1: each of the three operations returns, and releases exactly the
    handles its resolver run acquired: the resolved handle, once, when
    the resolver succeeded, and nothing when it failed or, for a name
    not given, was never run. *)
Theorem handle_released_once
    (cmd : cstring) (buf : buffer) (L : Z) (info : disk_partition)
    (w : world W) :
  (forall m, In m (resolved (get_mtd_device_by_name E cmd w)) ->
             granular m) ->
  let acquired := resolved (get_mtd_device_by_name E cmd w) in
  (List.length acquired <= 1)%nat
  /\ balanced (fastboot_spi_flash_get_part_info E A cmd info) w
       (if name_not_given cmd then [] else acquired)
  /\ balanced (fastboot_spi_flash_erase E cmd) w acquired
  /\ balanced (fastboot_spi_flash_write E A cmd buf L) w acquired.
Proof.
  intros Hg acquired. subst acquired. repeat split.
  - destruct (get_mtd_device_by_name E cmd w) as [[r [m|e]] w1|f w1];
      cbn; lia.
  - apply part_info_balanced.
  - apply part_info_balanced.
  - apply part_info_balanced.
  - apply erase_balanced.
  - apply erase_balanced.
  - apply erase_balanced.
  - apply (write_balanced cmd buf L w Hg).
  - apply (write_balanced cmd buf L w Hg).
  - apply (write_balanced cmd buf L w Hg).
Qed.

(** *** Names that are not given *)

(** Whatever happens after it, the write operation starts with a full
    resolver run. *)
Lemma write_after_resolver
    (cmd : cstring) (buf : buffer) (L : Z) (w : world W) :
  exists tail,
    trace (final (fastboot_spi_flash_write E A cmd buf L w)) =
      trace (final (get_mtd_device_by_name E cmd w)) ++ tail.
Proof.
  destruct (resolver_run E cmd w)
    as (r & p & w1 & evs & Hres & _ & _ & _ & _ & _ & _ & Hp).
  destruct p as [m|e]; destruct Hp as [-> _].
  - destruct (env_is_sparse E buf) eqn:Hsp.
    + destruct (Z.eqb_spec (lbaint A (writesize m)) 0) as [Hz|Hz].
      * exists []. rewrite app_nil_r.
        unfold fastboot_spi_flash_write, bind at 1. rewrite Hres. cbn.
        rewrite Hsp. unfold bind, udiv.
        rewrite (proj2 (Z.eqb_eq _ _) Hz). reflexivity.
      * destruct (fastboot_spi_flash_write_sparse cmd buf L w w1 m
                    Hres Hsp Hz) as (h & sev & Heq & _).
        rewrite Heq, Hres. eexists. reflexivity.
    + destruct (Z.eqb_spec (erasesize m) 0) as [Hz|Hz].
      * exists []. rewrite app_nil_r.
        unfold fastboot_spi_flash_write, bind at 1. rewrite Hres. cbn.
        rewrite Hsp. unfold bind, raw_erase_len, bind, umod.
        rewrite (proj2 (Z.eqb_eq _ _) Hz). reflexivity.
      * rewrite (fastboot_spi_flash_write_raw_eq cmd buf L w w1 m
                   Hres Hsp Hz), Hres.
        cbv zeta. destruct (nonzero _); eexists; reflexivity.
  - rewrite (fastboot_spi_flash_write_unresolved cmd buf L w w1 _ e Hres),
      Hres.
    eexists. reflexivity.
Qed.

Lemma erase_after_resolver (cmd : cstring) (w : world W) :
  exists tail,
    trace (final (fastboot_spi_flash_erase E cmd w)) =
      trace (final (get_mtd_device_by_name E cmd w)) ++ tail.
Proof.
  rewrite fastboot_spi_flash_erase_eq.
  destruct (get_mtd_device_by_name E cmd w) as [[r [m|e]] w1|f w1];
    cbv zeta; cbn [final trace]; eexists; try reflexivity.
  symmetry. apply app_nil_r.
Qed.

Lemma starts_with_resolver (T : Type) (c : M W T) (cmd : cstring)
    (w : world W) :
  (exists tail,
     trace (final (c w)) =
       trace (final (get_mtd_device_by_name E cmd w)) ++ tail) ->
  firstn 2 (run_events c w) =
    [EvProbe; EvGet cmd (fst (env_get E cmd (env_probe E (hw w))))].
Proof.
  intros [tail Ht].
  destruct (resolver_run E cmd w)
    as (r & p & w1 & evs & Hres & Htr & Hfirst & _).
  rewrite Hres in Ht. cbn [final] in Ht.
  rewrite Htr, <- app_assoc in Ht.
  rewrite (run_events_app _ _ w (evs ++ tail) Ht).
  apply firstn_2_app. exact Hfirst.
Qed.

(** C10: the erase and write operations have no guard on the name.  For
    a null or empty name, where [fastboot_spi_flash_get_part_info] only
    reports "partition not given", they still enumerate and look the
    name up, and when the resolver fails they report "partition not
    found" and nothing else, never "partition not given". *)
Theorem erase_write_no_name_guard
    (cmd : cstring) (buf : buffer) (L : Z) (info : disk_partition)
    (w : world W) :
  name_not_given cmd = true ->
  let first := fst (env_get E cmd (env_probe E (hw w))) in
  let resolver := get_mtd_device_by_name E cmd in
  let describe := fastboot_spi_flash_get_part_info E A cmd info in
  let erase := fastboot_spi_flash_erase E cmd in
  let write := fastboot_spi_flash_write E A cmd buf L in
  run_events describe w = [EvFail "partition not given"]
  /\ firstn 2 (run_events erase w) = [EvProbe; EvGet cmd first]
  /\ firstn 2 (run_events write w) = [EvProbe; EvGet cmd first]
  /\ (resolved (resolver w) = [] ->
      run_events erase w =
        run_events resolver w ++ [EvFail "partition not found"]
      /\ run_events write w =
        run_events resolver w ++ [EvFail "partition not found"]
      /\ ~ In (EvFail "partition not given") (run_events erase w)
      /\ ~ In (EvFail "partition not given") (run_events write w)).
Proof.
  intros Hn first resolver describe erase write.
  subst first resolver describe erase write.
  split.
  { apply run_events_app. unfold fastboot_spi_flash_get_part_info.
    rewrite Hn. reflexivity. }
  split; [apply starts_with_resolver, erase_after_resolver|].
  split; [apply starts_with_resolver, write_after_resolver|].
  intros Hfail.
  destruct (resolver_failure E cmd w Hfail)
    as (e & w1 & evs & Hres & Htr & Hrev & _ & _ & Hnf).
  assert (He : run_events (fastboot_spi_flash_erase E cmd) w =
               evs ++ [EvFail "partition not found"]).
  { apply run_events_app. rewrite fastboot_spi_flash_erase_eq, Hres.
    cbn [final trace]. rewrite Htr, <- app_assoc. reflexivity. }
  assert (Hw : run_events (fastboot_spi_flash_write E A cmd buf L) w =
               evs ++ [EvFail "partition not found"]).
  { apply run_events_app.
    rewrite (fastboot_spi_flash_write_unresolved cmd buf L w w1 _ e Hres).
    cbn [final trace]. rewrite Htr, <- app_assoc. reflexivity. }
  rewrite He, Hw, Hrev. repeat split.
  - intros Hin. apply in_app_or in Hin. destruct Hin as [Hin|Hin].
    + exact (Hnf _ Hin).
    + cbn in Hin. destruct Hin as [Hin|[]]. discriminate Hin.
  - intros Hin. apply in_app_or in Hin. destruct Hin as [Hin|Hin].
    + exact (Hnf _ Hin).
    + cbn in Hin. destruct Hin as [Hin|[]]. discriminate Hin.
Qed.

(** *** The sparse write callback *)

(** C5: the callback returns 0 when the program call fails and
    the requested chunk count when it succeeds, so for a non-zero chunk
    count it returns 0 exactly when the program call failed; and a
    callback that returned 0 makes the driver report the failure and
    stop, with no program call for the chunks after it. *)
Theorem sparse_write_reports_failure
    (f : sparse_fields) (blk blkcnt : Z) (data : buffer)
    (rest : list chunk) (w : world W) :
  let len := size_t A (lbaint A (blkcnt * blksz f)) in
  let offset := u32 (lbaint A (blk * blksz f)) in
  let pr := env_write E (priv f) offset len data (hw w) in
  let failed := nonzero (fst (fst pr)) in
  let callback := fb_mtd_sparse_write E A f blk blkcnt data in
  let driver :=
    drive_chunks E (backend_storage E A f)
      (ChunkWrite blk blkcnt data :: rest) in
  value (callback w) = Some (if failed then 0 else blkcnt)
  /\ (blkcnt <> 0 -> (value (callback w) = Some 0 <-> failed = true))
  /\ (value (callback w) = Some 0 ->
      value (driver w) = Some (-1)
      /\ run_events driver w =
           [EvWrite (priv f) offset len data; EvFail (env_sparse_msg E)]).
Proof.
  intros len offset pr failed callback driver.
  assert (Hcb : callback w =
                Ret (if failed then 0 else blkcnt)
                    {| hw := snd pr;
                       trace := trace w ++
                                [EvWrite (priv f) offset len data] |}).
  { subst callback. rewrite fb_mtd_sparse_write_eq. reflexivity. }
  split; [rewrite Hcb; reflexivity|].
  split.
  - intros Hnz. rewrite Hcb. cbn [value]. destruct failed.
    + split; reflexivity.
    + split; [intros H; injection H as H; contradiction|discriminate].
  - intros Hzero. rewrite Hcb in Hzero. cbn [value] in Hzero.
    injection Hzero as Hzero.
    assert (Hd : driver w =
                 Ret (-1)
                     {| hw := snd pr;
                        trace := trace w ++
                                 [EvWrite (priv f) offset len data;
                                  EvFail (env_sparse_msg E)] |}).
    { subst driver.
      rewrite (drive_chunks_abort (backend_storage E A f) blk blkcnt data
                 rest w _ ltac:(cbn [sp_write fields backend_storage];
                                fold callback; rewrite Hcb, Hzero;
                                reflexivity)).
      cbn. unfold log. trace_norm. reflexivity. }
    split; [rewrite Hd; reflexivity|].
    apply run_events_app. rewrite Hd. reflexivity.
Qed.

End Operations.

(** ** Runs on the simulated flash *)

(** A flash whose partitions show up on the second enumeration only. *)
Example resolver_on_lazy_flash :
  value (get_mtd_device_by_name flash_env (Some "boot"%string)
           (boot0 lazy_flash)) = Some (0, Handle boot_part)
  /\ run_events (get_mtd_device_by_name flash_env (Some "boot"%string))
       (boot0 lazy_flash) =
       [EvProbe; EvGet (Some "boot"%string) (ERR_PTR 19);
        EvProbe; EvGet (Some "boot"%string) (Handle boot_part)].
Proof.
  split; reflexivity.
Qed.

(** The example of the specification: 200 KiB into 128 KiB blocks. *)
Example erase_len_200KiB : erase_len boot_part (200 * KiB) = 256 * KiB.
Proof.
  reflexivity.
Qed.

Lemma handle_released_once_witness :
  let info := {| part_start := 0; part_size := 0; part_blksz := 0;
                 part_name := "" |} in
  resolved (get_mtd_device_by_name flash_env (Some "boot"%string)
              (boot0 flash0)) = [boot_part]
  /\ balanced (fastboot_spi_flash_get_part_info flash_env arm32
                 (Some "boot"%string) info) (boot0 flash0) [boot_part]
  /\ balanced (fastboot_spi_flash_erase flash_env (Some "boot"%string))
       (boot0 flash0) [boot_part]
  /\ balanced (fastboot_spi_flash_write flash_env arm32
                 (Some "boot"%string) sparse_image 4)
       (boot0 flash0) [boot_part].
Proof.
  cbv zeta. split; [reflexivity|].
  apply (handle_released_once flash_env arm32 (Some "boot"%string)
           sparse_image 4).
  intros m [<-|[]]. vm_compute. repeat split.
Defined.

Lemma raw_write_erase_length_witness :
  (0 <= 200 * KiB < 2 ^ 32 /\ 0 < erasesize boot_part < 2 ^ 32)
  /\ erases (run_events
               (fastboot_spi_flash_write flash_env arm32
                  (Some "boot"%string) [] (200 * KiB))
               (boot0 flash0)) =
       [(boot_part, 0, 256 * KiB)].
Proof.
  assert (HL : 0 <= 200 * KiB < 2 ^ 32) by (vm_compute; split; congruence).
  assert (HE : 0 < erasesize boot_part < 2 ^ 32)
    by (vm_compute; split; reflexivity).
  split; [split; assumption|].
  exact (proj2 (raw_write_erase_length flash_env arm32 (Some "boot"%string)
                  [] (200 * KiB) (boot0 flash0) boot_part
                  eq_refl eq_refl HL HE)).
Defined.

Lemma raw_write_erase_failure_witness :
  run_events
    (fastboot_spi_flash_write flash_env arm32 (Some "boot"%string) []
       (200 * KiB))
    (boot0 bad_erase_flash) =
    [EvProbe; EvGet (Some "boot"%string) (Handle boot_part);
     EvErase boot_part 0 (256 * KiB); EvFail "erase failed";
     EvPut boot_part]
  /\ programs
       (run_events
          (fastboot_spi_flash_write flash_env arm32 (Some "boot"%string) []
             (200 * KiB))
          (boot0 bad_erase_flash)) = [].
Proof.
  split; [reflexivity|].
  refine (proj2 (raw_write_erase_failure flash_env arm32
                   (Some "boot"%string) [] (200 * KiB)
                   (boot0 bad_erase_flash) boot_part
                   eq_refl eq_refl _ eq_refl)).
  vm_compute. discriminate.
Defined.

Lemma raw_write_length_not_clamped_witness :
  mtd_size boot_part < 5 * MiB
  /\ erases
       (run_events
          (fastboot_spi_flash_write flash_env arm32 (Some "boot"%string) []
             (5 * MiB))
          (boot0 flash0)) = [(boot_part, 0, 4 * MiB)]
  /\ programs
       (run_events
          (fastboot_spi_flash_write flash_env arm32 (Some "boot"%string) []
             (5 * MiB))
          (boot0 flash0)) = [(boot_part, 0, 5 * MiB)].
Proof.
  assert (HL : 0 <= 5 * MiB < 2 ^ 32) by (vm_compute; split; congruence).
  assert (HE : 0 < erasesize boot_part < 2 ^ 32)
    by (vm_compute; split; reflexivity).
  split; [reflexivity|].
  exact (proj2 (raw_write_length_not_clamped flash_env arm32
                  (Some "boot"%string) [] (5 * MiB) (boot0 flash0) boot_part
                  eq_refl eq_refl HL HE eq_refl)).
Defined.

Lemma erase_write_no_name_guard_witness :
  let info := {| part_start := 0; part_size := 0; part_blksz := 0;
                 part_name := "" |} in
  name_not_given (Some ""%string) = true
  /\ run_events (fastboot_spi_flash_get_part_info flash_env arm32
                   (Some ""%string) info) (boot0 flash0) =
       [EvFail "partition not given"]
  /\ run_events (fastboot_spi_flash_erase flash_env (Some ""%string))
       (boot0 flash0) =
       [EvProbe; EvGet (Some ""%string) (ERR_PTR 19);
        EvProbe; EvGet (Some ""%string) (ERR_PTR 19);
        EvFail "partition not found"]
  /\ run_events (fastboot_spi_flash_write flash_env arm32 (Some ""%string)
                   [] 0) (boot0 flash0) =
       [EvProbe; EvGet (Some ""%string) (ERR_PTR 19);
        EvProbe; EvGet (Some ""%string) (ERR_PTR 19);
        EvFail "partition not found"].
Proof.
  cbv zeta. split; [reflexivity|].
  destruct (erase_write_no_name_guard flash_env arm32 (Some ""%string)
              [] 0 {| part_start := 0; part_size := 0; part_blksz := 0;
                      part_name := "" |} (boot0 flash0) eq_refl)
    as (Hd & _ & _ & Hfail).
  destruct (Hfail eq_refl) as (He & Hw & _).
  split; [exact Hd|]. split; [exact He | exact Hw].
Defined.

Lemma sparse_write_reports_failure_witness :
  let f := {| blksz := 2 * KiB; start := 0; size := 2 * KiB;
              priv := boot_part |} in
  value (fb_mtd_sparse_write flash_env arm32 f 3 1 sparse_image
           (boot0 bad_write_flash)) = Some 0
  /\ run_events
       (drive_chunks flash_env (backend_storage flash_env arm32 f)
          [ChunkWrite 3 1 sparse_image; ChunkWrite 4 1 sparse_image])
       (boot0 bad_write_flash) =
       [EvWrite boot_part (6 * KiB) (2 * KiB) sparse_image;
        EvFail "flash write failure"].
Proof.
  cbv zeta.
  destruct (sparse_write_reports_failure flash_env arm32
              {| blksz := 2 * KiB; start := 0; size := 2 * KiB;
                 priv := boot_part |}
              3 1 sparse_image [ChunkWrite 4 1 sparse_image]
              (boot0 bad_write_flash))
    as (Hv & Hiff & Habort).
  assert (H1 : (1 <> 0)%Z) by discriminate.
  pose proof (proj2 (Hiff H1) eq_refl) as Hzero.
  split; [exact Hzero|].
  exact (proj2 (Habort Hzero)).
Defined.

(** C5, as claimed, fails for a request of zero chunks: the program call
    succeeds and the callback returns the chunk count, which is 0. *)
Lemma sparse_write_zero_chunks_counterexample :
  let f := {| blksz := 2 * KiB; start := 0; size := 2 * KiB;
              priv := boot_part |} in
  ~ (value (fb_mtd_sparse_write flash_env arm32 f 0 0 sparse_image
              (boot0 flash0)) = Some 0
     <-> nonzero (fst (fst (env_write flash_env boot_part 0 0 sparse_image
                              flash0))) = true).
Proof.
  cbv zeta. intros [H _]. specialize (H eq_refl). discriminate H.
Qed.

(** C6: on a partition larger than 4 GiB the byte offset of a chunk is
    cut to 32 bits.  The chunk at block [2 ^ 21] of an 8 GiB partition
    with 2 KiB pages, whose byte offset is [2 ^ 32], is programmed at
    offset 0, whatever the widths of [lbaint_t] and [size_t]; a sparse
    image holding the first and the middle block of that partition has
    both blocks programmed at offset 0. *)
Theorem sparse_write_offset_truncated :
  let f := {| blksz := 2 * KiB; start := 0;
              size := mtd_size huge_part / (2 * KiB);
              priv := huge_part |} in
  let blk := 2097152 in
  (blk < size f /\ blk * blksz f = 2 ^ 32)
  /\ programs
       (run_events (fb_mtd_sparse_write flash_env arm64 f blk 1 sparse_image)
          (boot0 flash0)) = [(huge_part, 0, 2 * KiB)]
  /\ programs
       (run_events (fb_mtd_sparse_write flash_env arm32 f blk 1 sparse_image)
          (boot0 flash0)) = [(huge_part, 0, 2 * KiB)]
  /\ programs
       (run_events
          (fastboot_spi_flash_write flash_env arm64 (Some "data"%string)
             sparse_image 4)
          (boot0 flash0)) =
       [(huge_part, 0, 2 * KiB); (huge_part, 0, 2 * KiB)].
Proof.
  vm_compute. repeat split.
Qed.

(** ** Further properties of the backend *)

Section Further.

Context {W : Type}.
Variable E : mtd_env W.
Variable A : arch.

Lemma responses_app (s t : list event) :
  responses (s ++ t) = responses s ++ responses t.
Proof. apply filter_app. Qed.

Lemma device_calls_app (s t : list event) :
  device_calls (s ++ t) = device_calls s ++ device_calls t.
Proof. apply filter_app. Qed.

Lemma after_release_app (s t : list event) :
  releases s = [] -> after_release (s ++ t) = after_release t.
Proof.
  induction s as [|e s IH]; intros H; [reflexivity|].
  destruct e; cbn in *; try (apply IH; exact H); discriminate.
Qed.

Lemma after_release_none (s : list event) :
  releases s = [] -> after_release s = [].
Proof.
  intros H. rewrite <- (app_nil_r s). rewrite after_release_app by exact H.
  reflexivity.
Qed.

(** What one resolver run leaves in the trace. *)
Lemma resolver_events (name : cstring) (w : world W) :
  let evs := run_events (get_mtd_device_by_name E name) w in
  trace (final (get_mtd_device_by_name E name w)) = trace w ++ evs
  /\ responses evs = [] /\ releases evs = []
  /\ erases evs = [] /\ programs evs = []
  /\ acquisitions evs = resolved (get_mtd_device_by_name E name w)
  /\ (probes evs <= 2)%nat.
Proof.
  cbv zeta.
  pose proof (get_mtd_device_by_name_eq E name w) as Heq. cbv zeta in Heq.
  destruct (env_get E name (env_probe E (hw w))) as [p1 h2].
  cbn [fst snd] in Heq.
  destruct p1 as [m|e].
  - rewrite (run_events_app _ _ w [EvProbe; EvGet name (Handle m)])
      by (rewrite Heq; reflexivity).
    rewrite Heq. cbn. repeat split; lia.
  - destruct (not_yet_available (ERR_PTR e)).
    + destruct (env_get E name (env_probe E h2)) as [p2 h4].
      cbn [fst snd] in Heq.
      rewrite (run_events_app _ _ w
                 [EvProbe; EvGet name (ERR_PTR e); EvProbe; EvGet name p2])
        by (rewrite Heq; reflexivity).
      rewrite Heq. destruct p2; cbn; repeat split; lia.
    + rewrite (run_events_app _ _ w [EvProbe; EvGet name (ERR_PTR e)])
        by (rewrite Heq; reflexivity).
      rewrite Heq. cbn. repeat split; lia.
Qed.

(** X1: the resolver returns 0 exactly when it leaves a device behind,
    and the negative errno of its last lookup otherwise; it acquires the
    device it returns and nothing else, releases nothing, and enumerates
    at most twice. *)
Theorem resolver_return_code (name : cstring) (w : world W) :
  exists r p w1,
    get_mtd_device_by_name E name w = Ret (r, p) w1
    /\ match p with
       | Handle m => r = 0
       | ERR_PTR e => r = Z.neg e /\ r < 0
       end
    /\ acquisitions (run_events (get_mtd_device_by_name E name) w) =
         match p with Handle m => [m] | ERR_PTR _ => [] end
    /\ releases (run_events (get_mtd_device_by_name E name) w) = []
    /\ (probes (run_events (get_mtd_device_by_name E name) w) <= 2)%nat.
Proof.
  destruct (resolver_events name w) as (_ & _ & Hr & _ & _ & Ha & Hp).
  destruct (resolver_run E name w)
    as (r & p & w1 & evs & Hres & _ & _ & _ & _ & _ & _ & Hcode).
  exists r, p, w1. rewrite Ha, Hres. cbn [resolved].
  split; [reflexivity|].
  split.
  - destruct p as [m|e]; destruct Hcode as [-> _]; [reflexivity|].
    split; [reflexivity|]. apply Pos2Z.neg_is_neg.
  - split; [destruct p; reflexivity|]. split; assumption.
Qed.

(** *** The partition descriptor *)

Lemma strncpy_length (src : string) (n : nat) :
  (String.length (strncpy src n) <= n)%nat.
Proof.
  unfold strncpy. revert src.
  induction n as [|n IH]; intros [|c src]; cbn; try lia.
  specialize (IH src). lia.
Qed.

Lemma strncpy_short (src : string) (n : nat) :
  (String.length src <= n)%nat -> strncpy src n = src.
Proof.
  unfold strncpy. revert src.
  induction n as [|n IH]; intros [|c src]; cbn; intros H;
    try reflexivity; try lia.
  rewrite IH by lia. reflexivity.
Qed.

Lemma part_info_events
    (part : cstring) (info : disk_partition) (w : world W) :
  run_events (fastboot_spi_flash_get_part_info E A part info) w =
    if name_not_given part then [EvFail "partition not given"]
    else run_events (get_mtd_device_by_name E part) w ++
         match resolved (get_mtd_device_by_name E part w) with
         | m :: _ => [EvPut m]
         | [] => [EvFail "partition not found"]
         end.
Proof.
  destruct (name_not_given part) eqn:Hn.
  - apply run_events_app. unfold fastboot_spi_flash_get_part_info.
    rewrite Hn. reflexivity.
  - destruct (resolver_events part w) as (Htr & _).
    apply run_events_app.
    rewrite (fastboot_spi_flash_get_part_info_eq E A part info w Hn).
    destruct (resolver_run E part w) as (r & p & w1 & evs & Hres & _).
    rewrite Hres in *.
    destruct p as [m|e]; cbn [final trace resolved] in *;
      rewrite Htr, <- app_assoc; reflexivity.
Qed.

(** X2: for a partition that resolves,
    [fastboot_spi_flash_get_part_info] returns 0 with a descriptor that
    starts at 0, has the page size as block size, the partition size
    reduced to [lbaint_t] (the size itself when it fits) and at most
    [PART_NAME_LEN] characters of the name (the name itself when it is
    that short); it releases the handle and sends no response. *)
Theorem part_info_descriptor
    (part : cstring) (info : disk_partition) (w : world W) (m : mtd_info) :
  name_not_given part = false ->
  resolved (get_mtd_device_by_name E part w) = [m] ->
  exists d,
    value (fastboot_spi_flash_get_part_info E A part info w) = Some (0, d)
    /\ part_start d = 0
    /\ part_blksz d = writesize m
    /\ part_size d = mtd_size m mod 2 ^ bits (lbaint_width A)
    /\ (0 <= mtd_size m < 2 ^ bits (lbaint_width A) ->
        part_size d = mtd_size m)
    /\ (String.length (part_name d) <= PART_NAME_LEN)%nat
    /\ ((String.length (mtd_name m) <= PART_NAME_LEN)%nat ->
        part_name d = mtd_name m)
    /\ run_events (fastboot_spi_flash_get_part_info E A part info) w =
         run_events (get_mtd_device_by_name E part) w ++ [EvPut m]
    /\ responses
         (run_events (fastboot_spi_flash_get_part_info E A part info) w) = [].
Proof.
  intros Hn Hm.
  destruct (resolver_success E part w m Hm) as (w1 & evs & Hres & _).
  destruct (resolver_events part w) as (_ & Hresp & _).
  pose proof (part_info_events part info w) as Hev.
  rewrite Hn, Hm in Hev.
  rewrite (fastboot_spi_flash_get_part_info_eq E A part info w Hn), Hres.
  eexists. split; [reflexivity|]. cbn [part_start part_blksz part_size
                                         part_name].
  repeat split.
  - intros Hs. unfold lbaint, wrap. apply Z.mod_small. exact Hs.
  - apply strncpy_length.
  - apply strncpy_short.
  - exact Hev.
  - rewrite Hev, responses_app, Hresp. reflexivity.
Qed.

(** X3: for a name that is given but does not resolve,
    [fastboot_spi_flash_get_part_info] returns the resolver's negative
    error code, leaves the caller's descriptor as it was, reports
    "partition not found" and releases nothing. *)
Theorem part_info_not_found
    (part : cstring) (info : disk_partition) (w : world W) :
  name_not_given part = false ->
  resolved (get_mtd_device_by_name E part w) = [] ->
  exists r p,
    value (get_mtd_device_by_name E part w) = Some (r, p)
    /\ r < 0
    /\ value (fastboot_spi_flash_get_part_info E A part info w) =
         Some (r, info)
    /\ responses
         (run_events (fastboot_spi_flash_get_part_info E A part info) w) =
         [EvFail "partition not found"]
    /\ releases
         (run_events (fastboot_spi_flash_get_part_info E A part info) w) = [].
Proof.
  intros Hn Hm.
  destruct (resolver_failure E part w Hm) as (e & w1 & evs & Hres & _).
  destruct (resolver_events part w) as (_ & Hresp & Hrel & _).
  pose proof (part_info_events part info w) as Hev.
  rewrite Hn, Hm in Hev.
  exists (Z.neg e), (ERR_PTR e).
  rewrite (fastboot_spi_flash_get_part_info_eq E A part info w Hn), Hres.
  rewrite Hev, responses_app, releases_app, Hresp, Hrel.
  repeat split.
Qed.

(** X4: [fastboot_spi_flash_get_part_info] is read-only: whatever the
    name and the state of the flash, it returns, never erases, never
    programs and never reports success on the response channel, and the
    release of the handle, when there is one, is its last call into the
    MTD subsystem. *)
Theorem part_info_read_only
    (part : cstring) (info : disk_partition) (w : world W) :
  let evs := run_events (fastboot_spi_flash_get_part_info E A part info) w in
  completes (fastboot_spi_flash_get_part_info E A part info w) = true
  /\ erases evs = [] /\ programs evs = []
  /\ ~ In EvOkay evs
  /\ device_calls (after_release evs) = [].
Proof.
  cbv zeta.
  destruct (part_info_balanced E A part info w) as (Hc & _).
  split; [exact Hc|].
  rewrite part_info_events.
  destruct (resolver_events part w) as (_ & Hresp & Hrel & Her & Hpr & _).
  destruct (name_not_given part).
  - cbn. repeat split. intros [H|[]]. discriminate H.
  - rewrite erases_app, programs_app, Her, Hpr.
    rewrite (after_release_app _ _ Hrel).
    assert (Hno : ~ In EvOkay
                    (run_events (get_mtd_device_by_name E part) w)).
    { intros Hin.
      assert (Hin' : In EvOkay
                (responses (run_events (get_mtd_device_by_name E part) w))).
      { apply filter_In. split; [exact Hin|reflexivity]. }
      rewrite Hresp in Hin'. exact Hin'. }
    destruct (resolved (get_mtd_device_by_name E part w)) as [|m l];
      cbn; repeat split; intros Hin; apply in_app_or in Hin;
      destruct Hin as [Hin|[Hin|[]]]; try discriminate Hin;
      exact (Hno Hin).
Qed.

(** *** The erase operation *)

Lemma resolver_device_calls (name : cstring) (w : world W) :
  device_calls (run_events (get_mtd_device_by_name E name) w) =
    run_events (get_mtd_device_by_name E name) w.
Proof.
  pose proof (get_mtd_device_by_name_eq E name w) as Heq. cbv zeta in Heq.
  destruct (env_get E name (env_probe E (hw w))) as [p1 h2].
  cbn [fst snd] in Heq.
  destruct p1 as [m|e].
  - rewrite (run_events_app _ _ w [EvProbe; EvGet name (Handle m)])
      by (rewrite Heq; reflexivity).
    reflexivity.
  - destruct (not_yet_available (ERR_PTR e)).
    + destruct (env_get E name (env_probe E h2)) as [p2 h4].
      cbn [fst snd] in Heq.
      rewrite (run_events_app _ _ w
                 [EvProbe; EvGet name (ERR_PTR e); EvProbe; EvGet name p2])
        by (rewrite Heq; reflexivity).
      reflexivity.
    + rewrite (run_events_app _ _ w [EvProbe; EvGet name (ERR_PTR e)])
        by (rewrite Heq; reflexivity).
      reflexivity.
Qed.

Lemma erase_events (cmd : cstring) (w : world W) :
  run_events (fastboot_spi_flash_erase E cmd) w =
    run_events (get_mtd_device_by_name E cmd) w ++
    match resolved (get_mtd_device_by_name E cmd w) with
    | m :: _ =>
        [EvErase m 0 (mtd_size m);
         EvPut m;
         if nonzero (fst (env_erase E m 0 (mtd_size m)
                            (hw (final (get_mtd_device_by_name E cmd w)))))
         then EvFail "failed erasing mtd device"
         else EvOkay]
    | [] => [EvFail "partition not found"]
    end.
Proof.
  destruct (resolver_events cmd w) as (Htr & _).
  apply run_events_app. rewrite fastboot_spi_flash_erase_eq.
  destruct (resolver_run E cmd w) as (r & p & w1 & evs & Hres & _).
  rewrite Hres in *.
  destruct p as [m|e]; cbv zeta; cbn [final trace resolved] in *;
    rewrite Htr, <- app_assoc; reflexivity.
Qed.

(** X5: every run of [fastboot_spi_flash_erase] sends exactly one
    response, which is success only when the partition resolved and
    the erase primitive returned 0; it never programs, erases at most
    once, and the release of the handle is its last call into the MTD
    subsystem. *)
Theorem erase_one_response (cmd : cstring) (w : world W) :
  let res := get_mtd_device_by_name E cmd w in
  let evs := run_events (fastboot_spi_flash_erase E cmd) w in
  responses evs =
    [match resolved res with
     | m :: _ =>
         if nonzero (fst (env_erase E m 0 (mtd_size m) (hw (final res))))
         then EvFail "failed erasing mtd device"
         else EvOkay
     | [] => EvFail "partition not found"
     end]
  /\ programs evs = []
  /\ (List.length (erases evs) <= 1)%nat
  /\ device_calls (after_release evs) = [].
Proof.
  cbv zeta. rewrite erase_events.
  destruct (resolver_events cmd w) as (_ & Hresp & Hrel & Her & Hpr & _).
  rewrite responses_app, programs_app, erases_app, Hresp, Hpr, Her.
  rewrite (after_release_app _ _ Hrel).
  destruct (resolved (get_mtd_device_by_name E cmd w)) as [|m l].
  - cbn. repeat split. lia.
  - destruct (nonzero _); cbn; repeat split; lia.
Qed.

Lemma write_unresolved_events
    (cmd : cstring) (buf : buffer) (L : Z) (w : world W) :
  resolved (get_mtd_device_by_name E cmd w) = [] ->
  completes (fastboot_spi_flash_write E A cmd buf L w) = true
  /\ run_events (fastboot_spi_flash_write E A cmd buf L) w =
       run_events (get_mtd_device_by_name E cmd) w ++
       [EvFail "partition not found"].
Proof.
  intros Hm.
  destruct (resolver_events cmd w) as (Htr & _).
  destruct (resolver_failure E cmd w Hm) as (e & w1 & evs & Hres & _).
  rewrite (fastboot_spi_flash_write_unresolved E A cmd buf L w w1 _ e Hres).
  split; [reflexivity|].
  apply run_events_app.
  rewrite (fastboot_spi_flash_write_unresolved E A cmd buf L w w1 _ e Hres).
  rewrite Hres in Htr. cbn [final trace] in *.
  rewrite Htr, <- app_assoc. reflexivity.
Qed.

(** X6: when the partition does not resolve, whatever the name, the
    payload and its length, the erase and the write operation report
    "partition not found" and leave the flash alone: their only calls
    into the MTD subsystem are the resolver's enumerations and lookups,
    and nothing is erased, programmed or released. *)
Theorem unknown_partition_untouched
    (cmd : cstring) (buf : buffer) (L : Z) (w : world W) :
  resolved (get_mtd_device_by_name E cmd w) = [] ->
  let resolver := run_events (get_mtd_device_by_name E cmd) w in
  let erase := run_events (fastboot_spi_flash_erase E cmd) w in
  let write := run_events (fastboot_spi_flash_write E A cmd buf L) w in
  (responses erase = [EvFail "partition not found"]
   /\ device_calls erase = resolver
   /\ erases erase = [] /\ programs erase = [] /\ releases erase = [])
  /\ (completes (fastboot_spi_flash_write E A cmd buf L w) = true
      /\ responses write = [EvFail "partition not found"]
      /\ device_calls write = resolver
      /\ erases write = [] /\ programs write = [] /\ releases write = []).
Proof.
  intros Hm. cbv zeta.
  destruct (resolver_events cmd w)
    as (Htr & Hresp & Hrel & Her & Hpr & _).
  pose proof (resolver_device_calls cmd w) as Hdc.
  destruct (write_unresolved_events cmd buf L w Hm) as [Hc Hw].
  rewrite erase_events, Hm, Hw, Hc.
  rewrite !responses_app, !device_calls_app, !erases_app, !programs_app,
    !releases_app, Hresp, Hdc, Her, Hpr, Hrel.
  cbn. rewrite app_nil_r. repeat split.
Qed.

(** *** The raw write *)

Lemma erase_len_bounds (m : mtd_info) (L : Z) :
  0 <= L < 2 ^ 32 -> 0 < erasesize m < 2 ^ 32 -> 0 <= mtd_size m ->
  0 <= erase_len m L <= mtd_size m
  /\ (L <= mtd_size m -> L <= erase_len m L)
  /\ erase_len m L < L + erasesize m
  /\ (erase_len m L mod erasesize m = 0 \/ erase_len m L = mtd_size m).
Proof.
  intros HL HE HS. rewrite (erase_len_min m L HL HE).
  set (c := ceil_div L (erasesize m)).
  assert (Hge : L <= c * erasesize m).
  { apply (ceil_div_least L (erasesize m) c); lia. }
  assert (Hlt : c * erasesize m < L + erasesize m).
  { subst c. destruct (Z.eq_dec (L mod erasesize m) 0) as [Hz|Hz].
    - rewrite ceil_div_exact by lia. lia.
    - rewrite ceil_div_round_up by lia.
      pose proof (Z.div_mod L (erasesize m) ltac:(lia)).
      pose proof (Z.mod_pos_bound L (erasesize m) ltac:(lia)). nia. }
  repeat split; try lia.
  destruct (Z.min_spec (mtd_size m) (c * erasesize m)) as [[_ ->]|[_ ->]].
  - right. reflexivity.
  - left. apply Z.mod_mul. lia.
Qed.

(** X7: a raw write sends exactly one response: "erase failed" when the
    erase primitive failed, else "write failed" when the program
    primitive failed, else success.  In each case the handle is
    released once, and that release is the last call into the MTD
    subsystem. *)
Theorem raw_write_one_response
    (cmd : cstring) (buf : buffer) (L : Z) (w : world W) (m : mtd_info) :
  resolved (get_mtd_device_by_name E cmd w) = [m] ->
  env_is_sparse E buf = false ->
  erasesize m <> 0 ->
  let w1 := final (get_mtd_device_by_name E cmd w) in
  let er := env_erase E m 0 (erase_len m L) (hw w1) in
  let pr := env_write E m 0 (size_t A L) buf (snd er) in
  let evs := run_events (fastboot_spi_flash_write E A cmd buf L) w in
  responses evs =
    [if nonzero (fst er) then EvFail "erase failed"
     else if nonzero (fst (fst pr)) then EvFail "write failed"
     else EvOkay]
  /\ releases evs = [m]
  /\ device_calls (after_release evs) = [].
Proof.
  intros Hm Hraw HE. cbv zeta.
  destruct (raw_write_events E A cmd buf L w m Hm Hraw HE) as [_ Hev].
  cbv zeta in Hev. rewrite Hev.
  destruct (resolver_events cmd w) as (_ & Hresp & Hrel & _).
  rewrite responses_app, releases_app, Hresp, Hrel.
  rewrite (after_release_app _ _ Hrel).
  destruct (nonzero (fst (env_erase E m 0 (erase_len m L) _)));
    [cbn; repeat split|].
  destruct (nonzero _); cbn; repeat split.
Qed.

(** X8: a raw write of zero bytes erases zero bytes, and when that erase
    succeeds programs zero bytes at offset 0; it still resolves, responds
    and releases like any other raw write. *)
Theorem raw_write_zero_length
    (cmd : cstring) (buf : buffer) (w : world W) (m : mtd_info) :
  resolved (get_mtd_device_by_name E cmd w) = [m] ->
  env_is_sparse E buf = false ->
  erasesize m <> 0 ->
  0 <= mtd_size m ->
  let w1 := final (get_mtd_device_by_name E cmd w) in
  let er := env_erase E m 0 0 (hw w1) in
  let evs := run_events (fastboot_spi_flash_write E A cmd buf 0) w in
  erases evs = [(m, 0, 0)]
  /\ programs evs = (if nonzero (fst er) then [] else [(m, 0, 0)])
  /\ releases evs = [m].
Proof.
  intros Hm Hraw HE HS. cbv zeta.
  destruct (raw_write_events E A cmd buf 0 w m Hm Hraw HE) as [_ Hev].
  cbv zeta in Hev. rewrite Hev.
  assert (Hlen : erase_len m 0 = 0).
  { unfold erase_len. rewrite Z.mod_0_l by exact HE. cbn.
    destruct (Z.gtb_spec 0 (mtd_size m)); [lia|reflexivity]. }
  assert (Hsz : size_t A 0 = 0).
  { unfold size_t, wrap. apply Z.mod_0_l.
    destruct (size_t_width A); discriminate. }
  rewrite Hlen, Hsz.
  destruct (resolver_events cmd w) as (_ & _ & Hrel & Her & Hpr & _).
  rewrite erases_app, programs_app, releases_app, Hrel, Her, Hpr.
  repeat match goal with
         | |- context [if ?b then _ else _] => destruct b
         end; repeat split.
Qed.

(** X9: a raw image that fits the partition is programmed into erased
    flash only: the one erase starts at offset 0 and is at least as long
    as the image, less than one erase block longer, no longer than the
    partition, and a whole number of erase blocks unless it was clamped
    to the partition size; every program call is at offset 0 with the
    image length. *)
Theorem raw_write_erase_covers_image
    (cmd : cstring) (buf : buffer) (L : Z) (w : world W) (m : mtd_info) :
  resolved (get_mtd_device_by_name E cmd w) = [m] ->
  env_is_sparse E buf = false ->
  0 <= L < 2 ^ 32 ->
  0 < erasesize m < 2 ^ 32 ->
  L <= mtd_size m ->
  let evs := run_events (fastboot_spi_flash_write E A cmd buf L) w in
  exists len,
    erases evs = [(m, 0, len)]
    /\ L <= len <= mtd_size m
    /\ len < L + erasesize m
    /\ (len mod erasesize m = 0 \/ len = mtd_size m)
    /\ Forall (fun p => p = (m, 0, L)) (programs evs).
Proof.
  intros Hm Hraw HL HE HS. cbv zeta.
  destruct (raw_write_events E A cmd buf L w m Hm Hraw ltac:(lia))
    as [_ Hev].
  cbv zeta in Hev. rewrite Hev, (size_t_u32 A L HL).
  destruct (erase_len_bounds m L HL HE ltac:(lia))
    as (Hb & Hcov & Hlt & Hal).
  exists (erase_len m L).
  destruct (resolver_events cmd w) as (_ & _ & _ & Her & Hpr & _).
  rewrite erases_app, programs_app, Her, Hpr.
  repeat match goal with
         | |- context [if ?b then _ else _] => destruct b
         end; cbn [erases programs flat_map app];
    repeat split; try lia; auto.
Qed.

(** *** The sparse write *)

Lemma u32_range (x : Z) : 0 <= u32 x < 2 ^ 32.
Proof.
  unfold u32, wrap. apply Z.mod_pos_bound. reflexivity.
Qed.

(** Through the backend's callbacks the driver can only program the
    device it was given, below 4 GiB, and report a failure. *)
Lemma drive_chunks_only_programs (f : sparse_fields) (cs : list chunk)
    (w : world W) :
  exists r w' evs,
    drive_chunks E (backend_storage E A f) cs w = Ret r w'
    /\ trace w' = trace w ++ evs
    /\ Forall (program_or_failure (priv f)) evs.
Proof.
  revert w. induction cs as [|c cs IH]; intros w.
  - exists 0, w, []. cbn. rewrite app_nil_r. auto.
  - destruct c as [blk blkcnt data|blk blkcnt]; cbn [drive_chunks].
    + unfold bind at 1. cbn [sp_write fields backend_storage].
      rewrite fb_mtd_sparse_write_eq. cbv zeta.
      set (w1 := {| hw := _; trace := _ |}).
      assert (Hp : program_or_failure (priv f)
                     (EvWrite (priv f) (u32 (lbaint A (blk * blksz f)))
                        (size_t A (lbaint A (blkcnt * blksz f))) data)).
      { split; [reflexivity|apply u32_range]. }
      destruct ((if nonzero _ then 0 else blkcnt) =? 0).
      * exists (-1), (log w1 (hw w1) (EvFail (env_sparse_msg E))),
          [EvWrite (priv f) (u32 (lbaint A (blk * blksz f)))
             (size_t A (lbaint A (blkcnt * blksz f))) data;
           EvFail (env_sparse_msg E)].
        split; [reflexivity|].
        subst w1. unfold log. trace_norm.
        split; [reflexivity|].
        constructor; [exact Hp|]. constructor; [exact I|]. constructor.
      * destruct (IH w1) as (r & w' & evs & Hrun & Htr & Hall).
        exists r, w', (EvWrite (priv f) (u32 (lbaint A (blk * blksz f)))
                         (size_t A (lbaint A (blkcnt * blksz f))) data
                       :: evs).
        rewrite Hrun, Htr. subst w1. trace_norm.
        split; [reflexivity|]. split; [reflexivity|].
        constructor; assumption.
    + unfold bind at 1. cbn [sp_reserve backend_storage].
      unfold fb_mtd_sparse_reserve, ret. apply IH.
Qed.

Lemma program_or_failure_quiet (m : mtd_info) (evs : list event) :
  Forall (program_or_failure m) evs ->
  releases evs = [] /\ acquisitions evs = [] /\ erases evs = []
  /\ Forall (fun p => fst (fst p) = m /\ 0 <= snd (fst p) < 2 ^ 32)
       (programs evs)
  /\ ~ In EvOkay evs.
Proof.
  induction 1 as [|e evs He _ IH]; [cbn; intuition|].
  destruct IH as (Hr & Ha & Her & Hp & Hok).
  destruct e; cbn in He; try contradiction; cbn;
    repeat split; try assumption.
  - constructor; [exact He|exact Hp].
  - intros [Hin|Hin]; [discriminate|exact (Hok Hin)].
  - intros [Hin|Hin]; [discriminate|exact (Hok Hin)].
Qed.

Lemma sparse_write_events
    (cmd : cstring) (buf : buffer) (L : Z) (w : world W) (m : mtd_info) :
  resolved (get_mtd_device_by_name E cmd w) = [m] ->
  env_is_sparse E buf = true ->
  lbaint A (writesize m) <> 0 ->
  exists evs,
    completes (fastboot_spi_flash_write E A cmd buf L w) = true
    /\ run_events (fastboot_spi_flash_write E A cmd buf L) w =
         run_events (get_mtd_device_by_name E cmd) w ++ evs ++ [EvPut m]
    /\ Forall (program_or_failure m) evs.
Proof.
  intros Hm Hsp Hws. apply Z.eqb_neq in Hws.
  destruct (resolver_success E cmd w m Hm)
    as (w1 & revs & Hres & Htr & Hrev & _).
  set (f := {| blksz := lbaint A (writesize m); start := 0;
               size := lbaint A (mtd_size m / lbaint A (writesize m));
               priv := m |}).
  destruct (drive_chunks_only_programs f
              (env_sparse_chunks E (blksz f) (size f) buf) w1)
    as (r & w2 & evs & Hrun & Htr2 & Hall).
  unfold backend_storage in Hrun. cbn [blksz size f] in Hrun.
  assert (Heq : fastboot_spi_flash_write E A cmd buf L w =
                Ret tt {| hw := env_put E m (hw w2);
                          trace := trace w ++ revs ++ evs ++ [EvPut m] |}).
  { unfold fastboot_spi_flash_write, bind at 1. rewrite Hres. cbn.
    rewrite Hsp. unfold bind, udiv. rewrite Hws. cbn.
    unfold write_sparse_image. cbn [fields blksz size].
    fold f. rewrite Hrun. cbn.
    unfold put_mtd_device, log. rewrite Htr2, Htr. trace_norm.
    reflexivity. }
  exists evs. rewrite Heq. split; [reflexivity|].
  split; [|exact Hall].
  rewrite Hrev. apply run_events_app. rewrite Heq. reflexivity.
Qed.

(** X10: a write of a sparse image never erases.  With the driver
    acting through the two callbacks only, all it does to the flash is
    program the resolved partition, always at an offset below 4 GiB;
    whether or not the transfer fails the handle is released once, as
    the last call into the MTD subsystem, and success is never reported
    by the backend itself. *)
Theorem sparse_write_never_erases
    (cmd : cstring) (buf : buffer) (L : Z) (w : world W) (m : mtd_info) :
  resolved (get_mtd_device_by_name E cmd w) = [m] ->
  env_is_sparse E buf = true ->
  granular m ->
  let evs := run_events (fastboot_spi_flash_write E A cmd buf L) w in
  completes (fastboot_spi_flash_write E A cmd buf L w) = true
  /\ erases evs = []
  /\ Forall (fun p => fst (fst p) = m /\ 0 <= snd (fst p) < 2 ^ 32)
       (programs evs)
  /\ releases evs = [m]
  /\ device_calls (after_release evs) = []
  /\ ~ In EvOkay evs.
Proof.
  intros Hm Hsp Hg. cbv zeta.
  destruct (sparse_write_events cmd buf L w m Hm Hsp
              (granular_lbaint A m Hg)) as (evs & Hc & Hev & Hall).
  destruct (program_or_failure_quiet m evs Hall)
    as (Hr & _ & Her & Hp & Hok).
  destruct (resolver_events cmd w)
    as (_ & Hresp & Hrrel & Hrer & Hrpr & _).
  split; [exact Hc|]. rewrite Hev.
  rewrite !erases_app, !programs_app, !releases_app, Hrer, Hrpr, Hrrel,
    Her, Hr.
  rewrite (after_release_app _ _ Hrrel), (after_release_app _ _ Hr).
  cbn [app erases programs releases flat_map after_release device_calls
       filter].
  rewrite app_nil_r.
  repeat split; try assumption.
  intros Hin. apply in_app_or in Hin. destruct Hin as [Hin|Hin].
  - assert (Hin' : In EvOkay
              (responses (run_events (get_mtd_device_by_name E cmd) w))).
    { apply filter_In. split; [exact Hin|reflexivity]. }
    rewrite Hresp in Hin'. exact Hin'.
  - apply in_app_or in Hin. destruct Hin as [Hin|[Hin|[]]].
    + exact (Hok Hin).
    + discriminate Hin.
Qed.

(** X11: as long as the byte offset and the byte length of a chunk
    request fit 32 bits, the write callback programs exactly
    [blkcnt * blksz] bytes at [blk * blksz] of the partition in one
    call, and returns 0 when that call failed and [blkcnt] otherwise;
    the reserve callback grants every request in full without touching
    the flash. *)
Theorem sparse_chunk_addressing
    (f : sparse_fields) (blk blkcnt : Z) (data : buffer) (w : world W) :
  0 <= blk * blksz f < 2 ^ 32 ->
  0 <= blkcnt * blksz f < 2 ^ 32 ->
  let pr := env_write E (priv f) (blk * blksz f) (blkcnt * blksz f) data
              (hw w) in
  fb_mtd_sparse_write E A f blk blkcnt data w =
    Ret (if nonzero (fst (fst pr)) then 0 else blkcnt)
        {| hw := snd pr;
           trace := trace w ++
             [EvWrite (priv f) (blk * blksz f) (blkcnt * blksz f) data] |}
  /\ fb_mtd_sparse_reserve (W := W) f blk blkcnt w = Ret blkcnt w.
Proof.
  intros Ho Hl.
  assert (Hw : forall x k, 0 <= x < 2 ^ 32 -> wrap (bits k) x = x).
  { intros x k Hx. unfold wrap. apply Z.mod_small.
    destruct k; cbn [bits];
      change (2 ^ 64) with 18446744073709551616;
      change (2 ^ 32) with 4294967296 in *; lia. }
  split; [|reflexivity].
  rewrite fb_mtd_sparse_write_eq. cbv zeta.
  unfold size_t, lbaint, u32.
  change (wrap 32) with (wrap (bits W32)).
  repeat rewrite (Hw (blk * blksz f)) by assumption.
  repeat rewrite (Hw (blkcnt * blksz f)) by assumption.
  reflexivity.
Qed.

(** X12: for a sparse image the driver is handed blocks of the page
    size and as many of them as fit the partition (when that count fits
    [lbaint_t]), starting at block 0 of the resolved partition: the
    chunk space ends within the partition and leaves out less than one
    page of it.  The handle is released when the driver is done. *)
Theorem sparse_geometry_within_partition
    (cmd : cstring) (buf : buffer) (L : Z) (w : world W) (m : mtd_info) :
  resolved (get_mtd_device_by_name E cmd w) = [m] ->
  env_is_sparse E buf = true ->
  granular m ->
  0 <= mtd_size m / writesize m < 2 ^ bits (lbaint_width A) ->
  let f := {| blksz := writesize m; start := 0;
              size := mtd_size m / writesize m; priv := m |} in
  fastboot_spi_flash_write E A cmd buf L w =
    (write_sparse_image E (backend_storage E A f) cmd buf ;;
     put_mtd_device E m) (final (get_mtd_device_by_name E cmd w))
  /\ size f * blksz f <= mtd_size m < (size f + 1) * blksz f.
Proof.
  intros Hm Hsp Hg Hsz f.
  destruct (resolver_success E cmd w m Hm) as (w1 & evs & Hres & _).
  split.
  - rewrite (fastboot_spi_flash_write_geometry E A cmd buf L w w1 m
               Hres Hsp Hg Hsz).
    rewrite Hres. reflexivity.
  - destruct Hg as [Hw _]. subst f. cbn [size blksz].
    pose proof (Z.div_mod (mtd_size m) (writesize m) ltac:(lia)).
    pose proof (Z.mod_pos_bound (mtd_size m) (writesize m) ltac:(lia)).
    nia.
Qed.

(** X13: on no path does the write operation erase beyond the
    partition: every erase call it makes starts at offset 0 of the
    resolved partition and is no longer than that partition, and there
    is at most one. *)
Theorem write_erases_within_partition
    (cmd : cstring) (buf : buffer) (L : Z) (w : world W) :
  (forall m, In m (resolved (get_mtd_device_by_name E cmd w)) ->
             granular m /\ 0 <= mtd_size m) ->
  0 <= L < 2 ^ 32 ->
  let evs := run_events (fastboot_spi_flash_write E A cmd buf L) w in
  Forall (fun e => In (fst (fst e))
                     (resolved (get_mtd_device_by_name E cmd w))
                   /\ snd (fst e) = 0
                   /\ 0 <= snd e <= mtd_size (fst (fst e)))
         (erases evs)
  /\ (List.length (erases evs) <= 1)%nat.
Proof.
  intros Hg HL. cbv zeta.
  destruct (resolved (get_mtd_device_by_name E cmd w)) as [|m l] eqn:Hm.
  - destruct (write_unresolved_events cmd buf L w Hm) as [_ Hev].
    destruct (resolver_events cmd w) as (_ & _ & _ & Her & _).
    rewrite Hev, erases_app, Her. split; [constructor|cbn; lia].
  - assert (l = []) as ->.
    { destruct (get_mtd_device_by_name E cmd w) as [[r [m'|e]] w1|f w1];
        cbn in Hm; congruence. }
    destruct (Hg m (or_introl eq_refl)) as [Hgm HS].
    destruct (env_is_sparse E buf) eqn:Hsp.
    + destruct (sparse_write_events cmd buf L w m Hm Hsp
                  (granular_lbaint A m Hgm)) as (evs & _ & Hev & Hall).
      destruct (program_or_failure_quiet m evs Hall) as (_ & _ & Her & _).
      destruct (resolver_events cmd w) as (_ & _ & _ & Hrer & _).
      rewrite Hev, !erases_app, Hrer, Her. split; [constructor|cbn; lia].
    + destruct Hgm as [_ HE].
      destruct (raw_write_events E A cmd buf L w m Hm Hsp ltac:(lia))
        as [_ Hev].
      cbv zeta in Hev. rewrite Hev.
      destruct (resolver_events cmd w) as (_ & _ & _ & Her & _).
      destruct (erase_len_bounds m L HL HE HS) as (Hb & _).
      rewrite erases_app, Her.
      repeat match goal with
             | |- context [if ?b then _ else _] => destruct b
             end; cbn [erases flat_map app List.length];
        (split; [|lia]); constructor; try constructor; cbn;
        intuition lia.
Qed.

(** X14: the return code of [fastboot_spi_flash_get_part_info] agrees
    with what it reports: it returns 0 without any response, or a
    negative code with exactly one failure response and the caller's
    descriptor untouched. *)
Theorem part_info_code_matches_response
    (part : cstring) (info : disk_partition) (w : world W) :
  let evs := run_events (fastboot_spi_flash_get_part_info E A part info) w in
  exists r d,
    value (fastboot_spi_flash_get_part_info E A part info w) = Some (r, d)
    /\ ((r = 0 /\ responses evs = [])
        \/ (r < 0 /\ d = info
            /\ exists msg, responses evs = [EvFail msg])).
Proof.
  cbv zeta. rewrite part_info_events.
  destruct (name_not_given part) eqn:Hn.
  - exists (- ENOENT), info.
    unfold fastboot_spi_flash_get_part_info. rewrite Hn.
    split; [reflexivity|]. right.
    repeat split. eexists. reflexivity.
  - rewrite (fastboot_spi_flash_get_part_info_eq E A part info w Hn).
    destruct (resolver_events part w) as (_ & Hresp & _).
    destruct (resolver_run E part w)
      as (r & p & w1 & evs & Hres & _ & _ & _ & _ & _ & _ & Hcode).
    rewrite Hres in *. rewrite responses_app, Hresp.
    destruct p as [m|e]; destruct Hcode as [-> _]; cbn [resolved value].
    + eexists 0, _. split; [reflexivity|]. left. split; reflexivity.
    + exists (Z.neg e), info. split; [reflexivity|]. right.
      repeat split. eexists. reflexivity.
Qed.

End Further.

(** ** Further runs on the simulated flash *)

Lemma part_info_descriptor_witness :
  exists d,
    value (fastboot_spi_flash_get_part_info flash_env arm32
             (Some "boot"%string)
             {| part_start := 7; part_size := 7; part_blksz := 7;
                part_name := "" |}
             (boot0 flash0)) = Some (0, d)
    /\ part_start d = 0 /\ part_blksz d = 2 * KiB
    /\ part_size d = 4 * MiB /\ part_name d = "boot"%string.
Proof.
  destruct (part_info_descriptor flash_env arm32 (Some "boot"%string)
              {| part_start := 7; part_size := 7; part_blksz := 7;
                 part_name := "" |}
              (boot0 flash0) boot_part eq_refl eq_refl)
    as (d & Hv & Hst & Hb & _ & Hfit & _ & Hname & _).
  exists d. split; [exact Hv|]. split; [exact Hst|]. split; [exact Hb|].
  split.
  - apply Hfit. vm_compute. split; congruence.
  - apply Hname. unfold PART_NAME_LEN. cbn. lia.
Defined.

Lemma part_info_not_found_witness :
  exists r p,
    value (get_mtd_device_by_name flash_env (Some "nope"%string)
             (boot0 flash0)) = Some (r, p)
    /\ r < 0
    /\ value (fastboot_spi_flash_get_part_info flash_env arm32
                (Some "nope"%string)
                {| part_start := 7; part_size := 7; part_blksz := 7;
                   part_name := "" |}
                (boot0 flash0)) =
         Some (r, {| part_start := 7; part_size := 7; part_blksz := 7;
                     part_name := "" |}).
Proof.
  destruct (part_info_not_found flash_env arm32 (Some "nope"%string)
              {| part_start := 7; part_size := 7; part_blksz := 7;
                 part_name := "" |}
              (boot0 flash0) eq_refl eq_refl)
    as (r & p & Hr & Hneg & Hv & _).
  exists r, p. split; [exact Hr|]. split; [exact Hneg|exact Hv].
Defined.

Lemma unknown_partition_untouched_witness :
  resolved (get_mtd_device_by_name flash_env (Some "nope"%string)
              (boot0 flash0)) = []
  /\ responses
       (run_events (fastboot_spi_flash_write flash_env arm32
                      (Some "nope"%string) sparse_image 4) (boot0 flash0)) =
       [EvFail "partition not found"]
  /\ programs
       (run_events (fastboot_spi_flash_write flash_env arm32
                      (Some "nope"%string) sparse_image 4) (boot0 flash0)) =
       [].
Proof.
  split; [reflexivity|].
  destruct (unknown_partition_untouched flash_env arm32
              (Some "nope"%string) sparse_image 4 (boot0 flash0) eq_refl)
    as (_ & _ & Hresp & _ & _ & Hpr & _).
  split; [exact Hresp|exact Hpr].
Defined.

Lemma raw_write_one_response_witness :
  responses
    (run_events (fastboot_spi_flash_write flash_env arm32
                   (Some "boot"%string) [] (200 * KiB))
       (boot0 bad_write_flash)) = [EvFail "write failed"]
  /\ releases
       (run_events (fastboot_spi_flash_write flash_env arm32
                      (Some "boot"%string) [] (200 * KiB))
          (boot0 bad_write_flash)) = [boot_part].
Proof.
  assert (HE : erasesize boot_part <> 0) by (vm_compute; discriminate).
  destruct (raw_write_one_response flash_env arm32 (Some "boot"%string) []
              (200 * KiB) (boot0 bad_write_flash) boot_part
              eq_refl eq_refl HE)
    as (Hresp & Hrel & _).
  split; [exact Hresp|exact Hrel].
Defined.

Lemma raw_write_zero_length_witness :
  erases
    (run_events (fastboot_spi_flash_write flash_env arm32
                   (Some "boot"%string) [] 0) (boot0 flash0)) =
    [(boot_part, 0, 0)]
  /\ programs
       (run_events (fastboot_spi_flash_write flash_env arm32
                      (Some "boot"%string) [] 0) (boot0 flash0)) =
       [(boot_part, 0, 0)].
Proof.
  assert (HE : erasesize boot_part <> 0) by (vm_compute; discriminate).
  assert (HS : 0 <= mtd_size boot_part) by (vm_compute; discriminate).
  destruct (raw_write_zero_length flash_env arm32 (Some "boot"%string) []
              (boot0 flash0) boot_part eq_refl eq_refl HE HS)
    as (Her & Hpr & _).
  split; [exact Her|exact Hpr].
Defined.

Lemma raw_write_erase_covers_image_witness :
  exists len,
    erases
      (run_events (fastboot_spi_flash_write flash_env arm32
                     (Some "boot"%string) [] (200 * KiB)) (boot0 flash0)) =
      [(boot_part, 0, len)]
    /\ 200 * KiB <= len <= mtd_size boot_part.
Proof.
  assert (HL : 0 <= 200 * KiB < 2 ^ 32) by (vm_compute; split; congruence).
  assert (HE : 0 < erasesize boot_part < 2 ^ 32)
    by (vm_compute; split; reflexivity).
  assert (HS : 200 * KiB <= mtd_size boot_part)
    by (vm_compute; discriminate).
  destruct (raw_write_erase_covers_image flash_env arm32
              (Some "boot"%string) [] (200 * KiB) (boot0 flash0) boot_part
              eq_refl eq_refl HL HE HS)
    as (len & Her & Hb & _).
  exists len. split; [exact Her|exact Hb].
Defined.

Lemma sparse_write_never_erases_witness :
  granular boot_part
  /\ erases
       (run_events (fastboot_spi_flash_write flash_env arm32
                      (Some "boot"%string) sparse_image 4) (boot0 flash0)) =
       []
  /\ releases
       (run_events (fastboot_spi_flash_write flash_env arm32
                      (Some "boot"%string) sparse_image 4) (boot0 flash0)) =
       [boot_part].
Proof.
  assert (Hg : granular boot_part) by (vm_compute; repeat split).
  split; [exact Hg|].
  destruct (sparse_write_never_erases flash_env arm32 (Some "boot"%string)
              sparse_image 4 (boot0 flash0) boot_part eq_refl eq_refl Hg)
    as (_ & Her & _ & Hrel & _).
  split; [exact Her|exact Hrel].
Defined.

Lemma sparse_chunk_addressing_witness :
  let f := {| blksz := 2 * KiB; start := 0; size := 2 * KiB;
              priv := boot_part |} in
  fb_mtd_sparse_write flash_env arm32 f 3 2 sparse_image (boot0 flash0) =
    Ret 2 {| hw := flash0;
             trace := [EvWrite boot_part (6 * KiB) (4 * KiB) sparse_image] |}.
Proof.
  cbv zeta.
  assert (Ho : 0 <= 3 * (2 * KiB) < 2 ^ 32)
    by (vm_compute; split; congruence).
  assert (Hl : 0 <= 2 * (2 * KiB) < 2 ^ 32)
    by (vm_compute; split; congruence).
  exact (proj1 (sparse_chunk_addressing flash_env arm32
                  {| blksz := 2 * KiB; start := 0; size := 2 * KiB;
                     priv := boot_part |}
                  3 2 sparse_image (boot0 flash0) Ho Hl)).
Defined.

Lemma sparse_geometry_within_partition_witness :
  let f := {| blksz := 2 * KiB; start := 0; size := 2 * KiB;
              priv := boot_part |} in
  size f * blksz f <= mtd_size boot_part < (size f + 1) * blksz f.
Proof.
  assert (Hg : granular boot_part) by (vm_compute; repeat split).
  assert (Hsz : 0 <= mtd_size boot_part / writesize boot_part
                < 2 ^ bits (lbaint_width arm32))
    by (vm_compute; split; congruence).
  exact (proj2 (sparse_geometry_within_partition flash_env arm32
                  (Some "boot"%string) sparse_image 4 (boot0 flash0)
                  boot_part eq_refl eq_refl Hg Hsz)).
Defined.

Lemma write_erases_within_partition_witness :
  (List.length
     (erases
        (run_events (fastboot_spi_flash_write flash_env arm32
                       (Some "boot"%string) [] (5 * MiB))
           (boot0 flash0))) <= 1)%nat.
Proof.
  assert (HL : 0 <= 5 * MiB < 2 ^ 32) by (vm_compute; split; congruence).
  refine (proj2 (write_erases_within_partition flash_env arm32
                   (Some "boot"%string) [] (5 * MiB) (boot0 flash0) _ HL)).
  intros m [<-|[]]. vm_compute. repeat split; congruence.
Defined.
